(** * Quota administration controller (lib/galaxy/webapps/galaxy/api/quotas.py)

    A shallow embedding of the two API surfaces of the quota controller:
    the typed router class [FastAPIQuota] and the legacy kwargs controller
    [QuotaAPIController].  Both are thin: every handler passes the admin
    gate, coerces its parameters and tail-calls one method of the
    [QuotasManager].  Handlers are embedded as small programs over manager
    calls, so that "which manager method is called, with which arguments"
    is data that theorems can talk about, and [run] executes such a program
    against an arbitrary manager implementation.  [Router] adds what comes
    before a typed handler: the route table and the binding of the handler's
    arguments from the request. *)

From Stdlib Require Import ZArith NArith Ascii String List Bool.
From stdpp Require Import base option strings gmap.

Local Open Scope string_scope.
Set Warnings "-register-all".

(** ** Python values reaching the legacy surface *)

(** The legacy dispatcher hands JSON-decoded request data to the handlers:
    the [payload] dict and the extra keyword arguments [kwd]. *)
Inductive pyval : Type :=
| PyNone
| PyBool (b : bool)
| PyInt (z : Z)
| PyStr (s : string)
| PyList (l : list pyval)
| PyDict (d : gmap string pyval).

Abbreviation pydict := (gmap string pyval).

(** ** Exceptions *)

(** The error taxonomy of the controller, plus Python's [TypeError], which
    keyword expansion of a non-mapping raises. *)
Inductive exn : Type :=
| AuthorizationError
| NotFoundError (msg : string)
| ValidationError (msg : string)
| ConflictError (msg : string)
| TypeError (msg : string).

(** [EncodedDatabaseIdField] is a [str] subclass: the encoded identifier. *)
Abbreviation EncodedDatabaseIdField := string.

(** ** Imported names

    What the module imports and only uses through its interface: the request
    context, the pydantic schema classes of [galaxy.quota._schema] and the
    values the manager returns.  A pydantic constructor, applied to the
    fields of a dict, either builds the object or raises [ValidationError]
    with its details. *)
Class Imports : Type := {
  ProvidesUserContext : Type;
  user_is_admin : ProvidesUserContext -> bool;
  CreateQuotaParams : Type;
  UpdateQuotaParams : Type;
  DeleteQuotaPayload : Type;
  CreateQuotaParams_init : pydict -> string + CreateQuotaParams;
  UpdateQuotaParams_init : pydict -> string + UpdateQuotaParams;
  DeleteQuotaPayload_init : pydict -> string + DeleteQuotaPayload;
  retval : Type
}.

(** ** Manager calls and handler programs *)

Section Programs.
Context `{Imports}.

(** One constructor per [QuotasManager] method the controller calls.  The
    payload of [delete] is optional: the typed surface passes [None] when the
    request has no body. *)
Inductive ManagerCall : Type :=
| manager_index (trans : ProvidesUserContext) (deleted : bool)
| manager_show (trans : ProvidesUserContext) (id : EncodedDatabaseIdField)
    (deleted : bool)
| manager_create (trans : ProvidesUserContext) (params : CreateQuotaParams)
| manager_update (trans : ProvidesUserContext) (id : EncodedDatabaseIdField)
    (params : UpdateQuotaParams)
| manager_delete (trans : ProvidesUserContext) (id : EncodedDatabaseIdField)
    (payload : option DeleteQuotaPayload)
| manager_undelete (trans : ProvidesUserContext) (id : EncodedDatabaseIdField).

(** A handler body: return a value, raise, or call the manager and go on
    with what it returned. *)
Inductive prog : Type :=
| Return (v : retval)
| Raise (e : exn)
| Call (c : ManagerCall) (k : retval -> prog).

(** [return self.manager.m(...)]. *)
Definition return_call (c : ManagerCall) : prog := Call c Return.

(** Sequencing of a pure step that may raise with the rest of the body. *)
Definition try_bind {A : Type} (r : exn + A) (k : A -> prog) : prog :=
  match r with
  | inl e => Raise e
  | inr a => k a
  end.

(** The manager calls a program starts with, if any. *)
Definition first_call (p : prog) : option ManagerCall :=
  match p with
  | Call c _ => Some c
  | _ => None
  end.

(** The identifier argument of a manager call. *)
Definition call_id (c : ManagerCall) : option EncodedDatabaseIdField :=
  match c with
  | manager_index _ _ => None
  | manager_show _ id _ => Some id
  | manager_create _ _ => None
  | manager_update _ id _ => Some id
  | manager_delete _ id _ => Some id
  | manager_undelete _ id => Some id
  end.

(** ** The manager as a collaborator *)

(** A manager implementation: a store and six methods that either return a
    value or raise, possibly changing the store. *)
Record QuotasManager : Type := {
  db : Type;
  mgr_index : ProvidesUserContext -> bool -> db -> (exn + retval) * db;
  mgr_show : ProvidesUserContext -> EncodedDatabaseIdField -> bool ->
             db -> (exn + retval) * db;
  mgr_create : ProvidesUserContext -> CreateQuotaParams ->
               db -> (exn + retval) * db;
  mgr_update : ProvidesUserContext -> EncodedDatabaseIdField ->
               UpdateQuotaParams -> db -> (exn + retval) * db;
  mgr_delete : ProvidesUserContext -> EncodedDatabaseIdField ->
               option DeleteQuotaPayload -> db -> (exn + retval) * db;
  mgr_undelete : ProvidesUserContext -> EncodedDatabaseIdField ->
                 db -> (exn + retval) * db
}.

Definition perform (m : QuotasManager) (c : ManagerCall)
  : db m -> (exn + retval) * db m :=
  match c with
  | manager_index trans deleted => mgr_index m trans deleted
  | manager_show trans id deleted => mgr_show m trans id deleted
  | manager_create trans params => mgr_create m trans params
  | manager_update trans id params => mgr_update m trans id params
  | manager_delete trans id payload => mgr_delete m trans id payload
  | manager_undelete trans id => mgr_undelete m trans id
  end.

(** The outcome of a request: what is returned or raised, the store after
    it, and the manager calls made, in order. *)
Record outcome (m : QuotasManager) : Type := Outcome {
  result : exn + retval;
  store : db m;
  calls : list ManagerCall
}.
Arguments Outcome {m} _ _ _.
Arguments result {m} _.
Arguments store {m} _.
Arguments calls {m} _.

(** Execution.  An exception raised by the manager is not caught anywhere in
    the module, so it ends the request. *)
Fixpoint run (m : QuotasManager) (p : prog) (st : db m) : outcome m :=
  match p with
  | Return v => Outcome (inr v) st []
  | Raise e => Outcome (inl e) st []
  | Call c k =>
      match perform m c st with
      | (inl e, st') => Outcome (inl e) st' [c]
      | (inr v, st') =>
          let o := run m (k v) st' in
          Outcome (result o) (store o) (c :: calls o)
      end
  end.

End Programs.

Arguments Outcome {_ m} _ _ _.
Arguments result {_ m} _.
Arguments store {_ m} _.
Arguments calls {_ m} _.

(** ** Parameter coercion *)

(** ASCII lower-casing, as [str.lower] acts on the letters that matter. *)
Definition lower_ascii (c : ascii) : ascii :=
  let n := N_of_ascii c in
  if ((65 <=? n) && (n <=? 90))%N then ascii_of_N (n + 32) else c.

Fixpoint lower (s : string) : string :=
  match s with
  | EmptyString => EmptyString
  | String c s' => String (lower_ascii c) (lower s')
  end.

(** Modelled from the spec: [galaxy.util.string_as_bool], which lives outside
    this module.  The spec gives conventional truthy-string rules: "true" and
    "1" are true, case-insensitively, and anything else is false. *)
Definition string_as_bool (s : string) : bool :=
  let l := lower s in
  String.eqb l "true" || String.eqb l "1".

(** Keyword expansion of a value in a call: the argument after the two
    stars must be a mapping. *)
Definition star_star (v : pyval) : exn + pydict :=
  match v with
  | PyDict d => inr d
  | _ => inl (TypeError "argument after ** must be a mapping")
  end.

(** A pydantic constructor raises [ValidationError] or yields the object. *)
Definition pydantic {A : Type} (r : string + A) : exn + A :=
  match r with
  | inl errors => inl (ValidationError errors)
  | inr a => inr a
  end.

(** Modelled from the spec: the signatures of [QuotasManager.index] and
    [QuotasManager.show] are outside this module; their [deleted] parameter,
    the next positional one after those passed here, defaults to false (the
    active listing and the active view are "deleted=false"). *)
Definition manager_deleted_default : bool := false.

Notation "'let!' x ':=' e 'in' k" := (try_bind e (fun x => k))
  (at level 10, x name, e at level 100, k at level 200, only parsing).

(** ** The admin gate *)

Section Gate.
Context `{Imports}.

(** Modelled from the spec: the decorator [web.require_admin] of the legacy
    surface.  A caller without administrator privilege gets the
    authorization failure before the decorated body runs. *)
Definition require_admin (trans : ProvidesUserContext) (body : prog) : prog :=
  if user_is_admin trans then body else Raise AuthorizationError.

(** Modelled from the spec: the route dependency [AdminUserRequired] of the
    typed surface, resolved before the handler is dispatched; it rejects in
    the same uniform way. *)
Definition AdminUserRequired (trans : ProvidesUserContext) (body : prog)
  : prog :=
  if user_is_admin trans then body else Raise AuthorizationError.

End Gate.

(** ** The typed surface *)

Module FastAPIQuota.
Section Handlers.
Context `{Imports}.

(** [GET /api/quotas] *)
Definition index (trans : ProvidesUserContext) : prog :=
  AdminUserRequired trans
    (return_call (manager_index trans manager_deleted_default)).

(** [GET /api/quotas/deleted] *)
Definition index_deleted (trans : ProvidesUserContext) : prog :=
  AdminUserRequired trans (return_call (manager_index trans true)).

(** [GET /api/quotas/{id}] *)
Definition show (trans : ProvidesUserContext) (id : EncodedDatabaseIdField)
  : prog :=
  AdminUserRequired trans
    (return_call (manager_show trans id manager_deleted_default)).

(** [GET /api/quotas/deleted/{id}] *)
Definition show_deleted (trans : ProvidesUserContext)
  (id : EncodedDatabaseIdField) : prog :=
  AdminUserRequired trans (return_call (manager_show trans id true)).

(** [POST /api/quotas] *)
Definition create (payload : CreateQuotaParams) (trans : ProvidesUserContext)
  : prog :=
  AdminUserRequired trans (return_call (manager_create trans payload)).

(** [PUT /api/quotas/{id}] *)
Definition update (payload : UpdateQuotaParams) (id : EncodedDatabaseIdField)
  (trans : ProvidesUserContext) : prog :=
  AdminUserRequired trans (return_call (manager_update trans id payload)).

(** [DELETE /api/quotas/{id}]; the body is declared [Body(None)], so the
    handler receives [None] when the request has none. *)
Definition delete (id : EncodedDatabaseIdField) (trans : ProvidesUserContext)
  (payload : option DeleteQuotaPayload) : prog :=
  AdminUserRequired trans (return_call (manager_delete trans id payload)).

(** [POST /api/quotas/deleted/{id}/undelete] *)
Definition undelete (id : EncodedDatabaseIdField)
  (trans : ProvidesUserContext) : prog :=
  AdminUserRequired trans (return_call (manager_undelete trans id)).

(** The eight routes of the router, with the arguments the framework binds. *)
Inductive request : Type :=
| GET_quotas
| GET_quotas_deleted
| GET_quota (id : EncodedDatabaseIdField)
| GET_quota_deleted (id : EncodedDatabaseIdField)
| POST_quotas (payload : CreateQuotaParams)
| PUT_quota (id : EncodedDatabaseIdField) (payload : UpdateQuotaParams)
| DELETE_quota (id : EncodedDatabaseIdField)
    (payload : option DeleteQuotaPayload)
| POST_undelete (id : EncodedDatabaseIdField).

Definition dispatch (trans : ProvidesUserContext) (r : request) : prog :=
  match r with
  | GET_quotas => index trans
  | GET_quotas_deleted => index_deleted trans
  | GET_quota id => show trans id
  | GET_quota_deleted id => show_deleted trans id
  | POST_quotas payload => create payload trans
  | PUT_quota id payload => update payload id trans
  | DELETE_quota id payload => delete id trans payload
  | POST_undelete id => undelete id trans
  end.

End Handlers.
End FastAPIQuota.

(** ** The legacy surface *)

Module QuotaAPIController.
Section Handlers.
Context `{Imports}.

(** The default of the [deleted] keyword parameter of [index] and [show]. *)
Definition deleted_default : string := "False".

(** [index], with [trans], [deleted='False'] and the extra keyword arguments;
    [None] stands for a call that does not pass [deleted]. *)
Definition index (trans : ProvidesUserContext) (deleted : option string)
  (kwd : pydict) : prog :=
  require_admin trans
    (let deleted := string_as_bool (default deleted_default deleted) in
     return_call (manager_index trans deleted)).

(** [show], with [trans], [id], [deleted='False'] and the extra keyword
    arguments. *)
Definition show (trans : ProvidesUserContext) (id : EncodedDatabaseIdField)
  (deleted : option string) (kwd : pydict) : prog :=
  require_admin trans
    (let deleted := string_as_bool (default deleted_default deleted) in
     return_call (manager_show trans id deleted)).

(** [create], with [trans], [payload] and the extra keyword arguments. *)
Definition create (trans : ProvidesUserContext) (payload : pyval)
  (kwd : pydict) : prog :=
  require_admin trans
    (let! fields := star_star payload in
     let! params := pydantic (CreateQuotaParams_init fields) in
     return_call (manager_create trans params)).

(** [update], with [trans], [id], [payload] and the extra keyword
    arguments. *)
Definition update (trans : ProvidesUserContext) (id : EncodedDatabaseIdField)
  (payload : pyval) (kwd : pydict) : prog :=
  require_admin trans
    (let! fields := star_star payload in
     let! params := pydantic (UpdateQuotaParams_init fields) in
     return_call (manager_update trans id params)).

(** [delete], with [trans], [id] and the extra keyword arguments; a request
    body is optional here. *)
Definition delete (trans : ProvidesUserContext) (id : EncodedDatabaseIdField)
  (kwd : pydict) : prog :=
  require_admin trans
    (let! fields := star_star (default (PyDict ∅) (kwd !! "payload")) in
     let! payload := pydantic (DeleteQuotaPayload_init fields) in
     return_call (manager_delete trans id (Some payload))).

(** [undelete], with [trans], [id] and the extra keyword arguments. *)
Definition undelete (trans : ProvidesUserContext)
  (id : EncodedDatabaseIdField) (kwd : pydict) : prog :=
  require_admin trans (return_call (manager_undelete trans id)).

(** The six methods with the arguments the dispatcher passes. *)
Inductive request : Type :=
| call_index (deleted : option string) (kwd : pydict)
| call_show (id : EncodedDatabaseIdField) (deleted : option string)
    (kwd : pydict)
| call_create (payload : pyval) (kwd : pydict)
| call_update (id : EncodedDatabaseIdField) (payload : pyval) (kwd : pydict)
| call_delete (id : EncodedDatabaseIdField) (kwd : pydict)
| call_undelete (id : EncodedDatabaseIdField) (kwd : pydict).

Definition dispatch (trans : ProvidesUserContext) (r : request) : prog :=
  match r with
  | call_index deleted kwd => index trans deleted kwd
  | call_show id deleted kwd => show trans id deleted kwd
  | call_create payload kwd => create trans payload kwd
  | call_update id payload kwd => update trans id payload kwd
  | call_delete id kwd => delete trans id kwd
  | call_undelete id kwd => undelete trans id kwd
  end.

End Handlers.
End QuotaAPIController.

(** ** A reference instance *)

(** Modelled from the spec: a small in-memory [QuotasManager] following the
    operation table of the spec (active and deleted listings, views that fail
    with NotFound in the wrong state, soft delete and undelete), with schema
    classes reduced to the quota name.  The theorems below hold for every
    instance; this one serves as the concrete instance of examples. *)

Module Reference.

Record context : Type := { user : string; admin : bool }.

Record quota : Type := {
  quota_id : string;
  quota_name : string;
  quota_deleted : bool
}.

Inductive value : Type :=
| Summaries (l : list quota)
| Details (q : quota)
| Created (q : quota)
| Status (msg : string).

(** [CreateQuotaParams]: the name is required. *)
Definition create_init (d : pydict) : string + string :=
  match d !! "name" with
  | Some (PyStr n) => inr n
  | Some _ => inl "name: str type expected"
  | None => inl "name: field required"
  end.

(** [UpdateQuotaParams]: the name is optional. *)
Definition update_init (d : pydict) : string + option string :=
  match d !! "name" with
  | Some (PyStr n) => inr (Some n)
  | Some _ => inl "name: str type expected"
  | None => inr None
  end.

(** [DeleteQuotaPayload]: auxiliary fields only, none required. *)
Definition delete_init (d : pydict) : string + pydict := inr d.

#[global] Instance imports : Imports := {|
  ProvidesUserContext := context;
  user_is_admin := admin;
  CreateQuotaParams := string;
  UpdateQuotaParams := option string;
  DeleteQuotaPayload := pydict;
  CreateQuotaParams_init := create_init;
  UpdateQuotaParams_init := update_init;
  DeleteQuotaPayload_init := delete_init;
  retval := value
|}.

Definition find_quota (id : string) (st : list quota) : option quota :=
  List.find (fun q => String.eqb (quota_id q) id) st.

Definition set_deleted (id : string) (b : bool) (st : list quota)
  : list quota :=
  List.map (fun q => if String.eqb (quota_id q) id
                     then {| quota_id := quota_id q;
                             quota_name := quota_name q;
                             quota_deleted := b |}
                     else q) st.

Definition set_name (id : string) (n : option string) (st : list quota)
  : list quota :=
  List.map (fun q => if String.eqb (quota_id q) id
                     then {| quota_id := quota_id q;
                             quota_name := default (quota_name q) n;
                             quota_deleted := quota_deleted q |}
                     else q) st.

Definition ref_index (trans : context) (deleted : bool) (st : list quota)
  : (exn + value) * list quota :=
  (inr (Summaries
          (List.filter (fun q => Bool.eqb (quota_deleted q) deleted) st)), st).

Definition ref_show (trans : context) (id : string) (deleted : bool)
  (st : list quota) : (exn + value) * list quota :=
  match find_quota id st with
  | Some q => if Bool.eqb (quota_deleted q) deleted
              then (inr (Details q), st)
              else (inl (NotFoundError id), st)
  | None => (inl (NotFoundError id), st)
  end.

Definition ref_create (trans : context) (name : string) (st : list quota)
  : (exn + value) * list quota :=
  let q := {| quota_id := "q-" ++ name; quota_name := name;
              quota_deleted := false |} in
  match find_quota (quota_id q) st with
  | Some _ => (inl (ConflictError name), st)
  | None => (inr (Created q), (st ++ [q])%list)
  end.

Definition ref_update (trans : context) (id : string) (n : option string)
  (st : list quota) : (exn + value) * list quota :=
  match find_quota id st with
  | Some q => if quota_deleted q
              then (inl (NotFoundError id), st)
              else (inr (Status "updated"), set_name id n st)
  | None => (inl (NotFoundError id), st)
  end.

Definition ref_delete (trans : context) (id : string)
  (payload : option pydict) (st : list quota)
  : (exn + value) * list quota :=
  match find_quota id st with
  | Some q => if quota_deleted q
              then (inl (NotFoundError id), st)
              else (inr (Status "deleted"), set_deleted id true st)
  | None => (inl (NotFoundError id), st)
  end.

Definition ref_undelete (trans : context) (id : string) (st : list quota)
  : (exn + value) * list quota :=
  match find_quota id st with
  | Some q => if quota_deleted q
              then (inr (Status "undeleted"), set_deleted id false st)
              else (inl (ConflictError id), st)
  | None => (inl (NotFoundError id), st)
  end.

Definition manager : QuotasManager := {|
  db := list quota;
  mgr_index := ref_index;
  mgr_show := ref_show;
  mgr_create := ref_create;
  mgr_update := ref_update;
  mgr_delete := ref_delete;
  mgr_undelete := ref_undelete
|}.

Definition root : context := {| user := "root"; admin := true |}.
Definition guest : context := {| user := "guest"; admin := false |}.

(** An active quota and a deleted one. *)
Definition store0 : list quota :=
  [ {| quota_id := "f2db41e1fa331b3e"; quota_name := "staff";
       quota_deleted := false |};
    {| quota_id := "f597429621d6eb2b"; quota_name := "trial";
       quota_deleted := true |} ].

(** The quotas of a listing, and the state of a quota in the store: its
    deleted flag, if the identifier is known. *)
Definition listed (v : value) : list quota :=
  match v with
  | Summaries l => l
  | _ => []
  end.

Definition quota_state (st : list quota) (id : string) : option bool :=
  quota_deleted <$> find_quota id st.

(** The encoded identifiers of the reference instance: lower-case hex
    strings whose length is a positive multiple of sixteen. *)
Definition is_hex_digit (c : ascii) : bool :=
  let n := N_of_ascii c in
  (((48 <=? n) && (n <=? 57)) || ((97 <=? n) && (n <=? 102)))%N.

Fixpoint all_hex (s : string) : bool :=
  match s with
  | EmptyString => true
  | String c s' => is_hex_digit c && all_hex s'
  end.

Definition validate_id (s : string) : string + string :=
  if negb (String.eqb s "") && (String.length s mod 16 =? 0)%nat && all_hex s
  then inr s
  else inl "id: invalid encoded id".

End Reference.

(** ** Vocabulary of the statements *)

(** The strings the [deleted] parameter is read as true for: every casing of
    "true", and "1". *)
Definition truthy_strings : list string :=
  [
    "true"; "truE"; "trUe"; "trUE"; "tRue"; "tRuE";
    "tRUe"; "tRUE"; "True"; "TruE"; "TrUe"; "TrUE";
    "TRue"; "TRuE"; "TRUe"; "TRUE"; "1"
  ].

(** The identifier a request carries in its path, if its route has one. *)
Section PathIdentifier.
Context `{Imports}.

Definition typed_path_id (r : FastAPIQuota.request)
  : option EncodedDatabaseIdField :=
  match r with
  | FastAPIQuota.GET_quotas => None
  | FastAPIQuota.GET_quotas_deleted => None
  | FastAPIQuota.GET_quota id => Some id
  | FastAPIQuota.GET_quota_deleted id => Some id
  | FastAPIQuota.POST_quotas _ => None
  | FastAPIQuota.PUT_quota id _ => Some id
  | FastAPIQuota.DELETE_quota id _ => Some id
  | FastAPIQuota.POST_undelete id => Some id
  end.

Definition legacy_path_id (r : QuotaAPIController.request)
  : option EncodedDatabaseIdField :=
  match r with
  | QuotaAPIController.call_index _ _ => None
  | QuotaAPIController.call_show id _ _ => Some id
  | QuotaAPIController.call_create _ _ => None
  | QuotaAPIController.call_update id _ _ => Some id
  | QuotaAPIController.call_delete id _ => Some id
  | QuotaAPIController.call_undelete id _ => Some id
  end.

End PathIdentifier.

(** What a request ends with: an error raised before any call, with the
    store untouched, or exactly what the single manager call yields. *)
Section Endings.
Context `{Imports}.

Definition ends_as_raised_or_delegated (m : QuotasManager) (p : prog)
  (st : db m) : Prop :=
  (exists e : exn, p = Raise e /\ run m p st = Outcome (inl e) st []) \/
  (exists c : ManagerCall,
      p = return_call c /\
      run m p st = Outcome (perform m c st).1 (perform m c st).2 [c]).

End Endings.

(** ** More vocabulary: what a manager call is made of *)

Section CallParts.
Context `{Imports}.

(** The six methods of the manager. *)
Inductive manager_method : Type :=
| method_index
| method_show
| method_create
| method_update
| method_delete
| method_undelete.

Definition call_method (c : ManagerCall) : manager_method :=
  match c with
  | manager_index _ _ => method_index
  | manager_show _ _ _ => method_show
  | manager_create _ _ => method_create
  | manager_update _ _ _ => method_update
  | manager_delete _ _ _ => method_delete
  | manager_undelete _ _ => method_undelete
  end.

(** The request context a manager call is made with. *)
Definition call_trans (c : ManagerCall) : ProvidesUserContext :=
  match c with
  | manager_index trans _ => trans
  | manager_show trans _ _ => trans
  | manager_create trans _ => trans
  | manager_update trans _ _ => trans
  | manager_delete trans _ _ => trans
  | manager_undelete trans _ => trans
  end.

(** The operation a request asks for, named by its manager method. *)
Definition typed_operation (r : FastAPIQuota.request) : manager_method :=
  match r with
  | FastAPIQuota.GET_quotas => method_index
  | FastAPIQuota.GET_quotas_deleted => method_index
  | FastAPIQuota.GET_quota _ => method_show
  | FastAPIQuota.GET_quota_deleted _ => method_show
  | FastAPIQuota.POST_quotas _ => method_create
  | FastAPIQuota.PUT_quota _ _ => method_update
  | FastAPIQuota.DELETE_quota _ _ => method_delete
  | FastAPIQuota.POST_undelete _ => method_undelete
  end.

Definition legacy_operation (r : QuotaAPIController.request)
  : manager_method :=
  match r with
  | QuotaAPIController.call_index _ _ => method_index
  | QuotaAPIController.call_show _ _ _ => method_show
  | QuotaAPIController.call_create _ _ => method_create
  | QuotaAPIController.call_update _ _ _ => method_update
  | QuotaAPIController.call_delete _ _ => method_delete
  | QuotaAPIController.call_undelete _ _ => method_undelete
  end.

(** The listing and the view are the reading methods. *)
Definition reads_only (mm : manager_method) : bool :=
  match mm with
  | method_index | method_show => true
  | _ => false
  end.

End CallParts.

(** ** The route table of the typed surface

    The decorators of [FastAPIQuota] register eight routes on the router, in
    the order of the class body.  A route is an HTTP method and a path
    pattern; a part in braces is a path parameter and stands for one
    non-empty segment without a slash.  Paths are kept as their segments. *)

Inductive http_method : Type := GET | POST | PUT | DELETE.

Inductive path_part : Type :=
| literal (s : string)
| path_param (name : string).

Inductive endpoint : Type :=
| endpoint_index
| endpoint_index_deleted
| endpoint_show
| endpoint_show_deleted
| endpoint_create
| endpoint_update
| endpoint_delete
| endpoint_undelete.

Record route : Type := Route {
  route_method : http_method;
  route_path : list path_part;
  route_endpoint : endpoint
}.

Definition routes : list route :=
  [ Route GET [literal "api"; literal "quotas"] endpoint_index;
    Route GET [literal "api"; literal "quotas"; literal "deleted"]
      endpoint_index_deleted;
    Route GET [literal "api"; literal "quotas"; path_param "id"]
      endpoint_show;
    Route GET [literal "api"; literal "quotas"; literal "deleted";
               path_param "id"] endpoint_show_deleted;
    Route POST [literal "api"; literal "quotas"] endpoint_create;
    Route PUT [literal "api"; literal "quotas"; path_param "id"]
      endpoint_update;
    Route DELETE [literal "api"; literal "quotas"; path_param "id"]
      endpoint_delete;
    Route POST [literal "api"; literal "quotas"; literal "deleted";
                path_param "id"; literal "undelete"] endpoint_undelete ].

Definition http_method_eqb (a b : http_method) : bool :=
  match a, b with
  | GET, GET | POST, POST | PUT, PUT | DELETE, DELETE => true
  | _, _ => false
  end.

Fixpoint has_slash (s : string) : bool :=
  match s with
  | EmptyString => false
  | String c s' => Ascii.eqb c "/" || has_slash s'
  end.

(** What a path parameter matches when a route is looked up: one segment,
    not empty, without a slash.  The declared type of the parameter is
    validated later, once the route is chosen (see [Router.path_id]). *)
Definition segment_ok (s : string) : bool :=
  negb (String.eqb s "") && negb (has_slash s).

(** Matching of a pattern against the segments of a path; the result is the
    values bound to the path parameters, in order. *)
Fixpoint match_path (pattern : list path_part) (path : list string)
  : option (list string) :=
  match pattern, path with
  | [], [] => Some []
  | literal l :: pattern', s :: path' =>
      if String.eqb l s then match_path pattern' path' else None
  | path_param _ :: pattern', s :: path' =>
      if segment_ok s
      then match match_path pattern' path' with
           | Some bound => Some (s :: bound)
           | None => None
           end
      else None
  | _, _ => None
  end.

Definition route_matches (r : route) (meth : http_method)
  (path : list string) : option (list string) :=
  if http_method_eqb (route_method r) meth
  then match_path (route_path r) path
  else None.

(** The routes are tried in the order of their declaration; the first one
    that matches serves the request. *)
Fixpoint first_match (rs : list route) (meth : http_method)
  (path : list string) : option (endpoint * list string) :=
  match rs with
  | [] => None
  | r :: rs' =>
      match route_matches r meth path with
      | Some bound => Some (route_endpoint r, bound)
      | None => first_match rs' meth path
      end
  end.

Definition resolve (meth : http_method) (path : list string)
  : option (endpoint * list string) :=
  first_match routes meth path.

(** What a part of a pattern accepts as a segment. *)
Definition part_accepts (p : path_part) (s : string) : Prop :=
  match p with
  | literal l => l = s
  | path_param _ => segment_ok s = true
  end.

(** ** The typed routes, from the request as it arrives

    The handlers of [FastAPIQuota] are entered with arguments the framework
    has bound from the request.  For a route whose handler declares a body
    the framework first decodes the body as JSON; then it resolves the
    dependencies of the route, [AdminUserRequired] among them; then it
    validates the path parameter against [EncodedDatabaseIdField] and the
    decoded body against the schema class of the handler; only then is the
    handler called.  A failure of decoding or validation is answered as a
    validation failure, without the handler. *)

Inductive request_body : Type :=
| body_absent
| body_undecodable
| body_json (v : pyval).

Module Router.
Section Handling.
Context `{Imports}.

(** The validation of [EncodedDatabaseIdField], declared outside this
    module: the field value of an acceptable string, or what is wrong. *)
Variable validate : string -> string + EncodedDatabaseIdField.

(** The handlers that declare a body: [create], [update] and [delete]. *)
Definition takes_body (e : endpoint) : bool :=
  match e with
  | endpoint_create | endpoint_update | endpoint_delete => true
  | _ => false
  end.

(** Decoding; a route without a body parameter does not read the body. *)
Definition read_body (e : endpoint) (body : request_body)
  : exn + option pyval :=
  if takes_body e
  then match body with
       | body_absent => inr None
       | body_undecodable => inl (ValidationError "body: invalid JSON")
       | body_json v => inr (Some v)
       end
  else inr None.

(** [id: EncodedDatabaseIdField = QuotaIdPathParam], a required parameter. *)
Definition path_id (ids : list string) : exn + EncodedDatabaseIdField :=
  match ids with
  | [raw] => pydantic (validate raw)
  | _ => inl (ValidationError "id: field required")
  end.

(** A required body parameter of a schema class, as in [create] and
    [update]. *)
Definition required_body {A : Type} (init : pydict -> string + A)
  (value : option pyval) : exn + A :=
  match value with
  | Some (PyDict fields) => pydantic (init fields)
  | Some PyNone | None => inl (ValidationError "body: field required")
  | Some _ => inl (ValidationError "body: value is not a valid dict")
  end.

(** A body parameter declared [Body(None)], as in [delete]. *)
Definition optional_body {A : Type} (init : pydict -> string + A)
  (value : option pyval) : exn + option A :=
  match value with
  | Some (PyDict fields) =>
      match pydantic (init fields) with
      | inl e => inl e
      | inr a => inr (Some a)
      end
  | Some PyNone | None => inr None
  | Some _ => inl (ValidationError "body: value is not a valid dict")
  end.

Definition and_then {A B : Type} (r : exn + A) (f : A -> exn + B)
  : exn + B :=
  match r with
  | inl e => inl e
  | inr a => f a
  end.

(** The arguments of the handler of a route, from the identifiers bound by
    the path and the decoded body. *)
Definition bind_arguments (e : endpoint) (ids : list string)
  (value : option pyval) : exn + FastAPIQuota.request :=
  match e with
  | endpoint_index => inr FastAPIQuota.GET_quotas
  | endpoint_index_deleted => inr FastAPIQuota.GET_quotas_deleted
  | endpoint_show =>
      and_then (path_id ids) (fun id => inr (FastAPIQuota.GET_quota id))
  | endpoint_show_deleted =>
      and_then (path_id ids)
        (fun id => inr (FastAPIQuota.GET_quota_deleted id))
  | endpoint_create =>
      and_then (required_body CreateQuotaParams_init value)
        (fun payload => inr (FastAPIQuota.POST_quotas payload))
  | endpoint_update =>
      and_then (path_id ids) (fun id =>
      and_then (required_body UpdateQuotaParams_init value)
        (fun payload => inr (FastAPIQuota.PUT_quota id payload)))
  | endpoint_delete =>
      and_then (path_id ids) (fun id =>
      and_then (optional_body DeleteQuotaPayload_init value)
        (fun payload => inr (FastAPIQuota.DELETE_quota id payload)))
  | endpoint_undelete =>
      and_then (path_id ids)
        (fun id => inr (FastAPIQuota.POST_undelete id))
  end.

(** A request on a route of the typed surface. *)
Definition handle (trans : ProvidesUserContext) (e : endpoint)
  (ids : list string) (body : request_body) : prog :=
  let! value := read_body e body in
  AdminUserRequired trans
    (let! r := bind_arguments e ids value in
     FastAPIQuota.dispatch trans r).

(** A request on the router: the route is looked up, then handled; [None]
    when no route of this router matches. *)
Definition serve (trans : ProvidesUserContext) (meth : http_method)
  (path : list string) (body : request_body) : option prog :=
  match resolve meth path with
  | Some (e, ids) => Some (handle trans e ids body)
  | None => None
  end.

End Handling.
End Router.

(** ** The default of an absent delete payload *)

Section PayloadDefault.
Context `{Imports}.





End PayloadDefault.

(** Requests of the two surfaces with the same input: the path segment is an
    identifier the typed route accepts and the legacy request carries it;
    the [deleted] string of the legacy request is coerced to the flag of the
    typed route; the body of the typed request is the payload of the legacy
    one and the schema accepts it, or both come without a body. *)
Section SameInput.
Context `{Imports}.
Variable validate : string -> string + EncodedDatabaseIdField.


End SameInput.

(** * Properties *)

(** ** Execution of the handler shapes *)

Section RunFacts.
Context `{Imports}.

Lemma run_raise (m : QuotasManager) (e : exn) (st : db m) :
  run m (Raise e) st = Outcome (inl e) st [].
Proof. reflexivity. Qed.

(** A tail call yields what the manager yields, value or exception, and the
    store the manager leaves, after exactly one call. *)
Lemma run_return_call (m : QuotasManager) (c : ManagerCall) (st : db m) :
  run m (return_call c) st
  = Outcome (perform m c st).1 (perform m c st).2 [c].
Proof.
  unfold return_call. simpl.
  destruct (perform m c st) as [[e | v] st']; reflexivity.
Qed.

Lemma require_admin_pass (trans : ProvidesUserContext) (body : prog) :
  user_is_admin trans = true -> require_admin trans body = body.
Proof. intros Hadm. unfold require_admin. now rewrite Hadm. Qed.

Lemma require_admin_reject (trans : ProvidesUserContext) (body : prog) :
  user_is_admin trans = false ->
  require_admin trans body = Raise AuthorizationError.
Proof. intros Hadm. unfold require_admin. now rewrite Hadm. Qed.

Lemma AdminUserRequired_pass (trans : ProvidesUserContext) (body : prog) :
  user_is_admin trans = true -> AdminUserRequired trans body = body.
Proof. intros Hadm. unfold AdminUserRequired. now rewrite Hadm. Qed.

Lemma AdminUserRequired_reject (trans : ProvidesUserContext) (body : prog) :
  user_is_admin trans = false ->
  AdminUserRequired trans body = Raise AuthorizationError.
Proof. intros Hadm. unfold AdminUserRequired. now rewrite Hadm. Qed.

End RunFacts.

Create Rewrite HintDb gate.
#[local] Hint Rewrite @require_admin_pass @AdminUserRequired_pass
  using assumption : gate.
#[local] Hint Rewrite @require_admin_reject @AdminUserRequired_reject
  using assumption : gate.

(** Unfold a handler and pass or fail its gate with the hypothesis at hand. *)
Ltac handler :=
  unfold FastAPIQuota.dispatch, QuotaAPIController.dispatch,
    FastAPIQuota.index, FastAPIQuota.index_deleted, FastAPIQuota.show,
    FastAPIQuota.show_deleted, FastAPIQuota.create, FastAPIQuota.update,
    FastAPIQuota.delete, FastAPIQuota.undelete,
    QuotaAPIController.index, QuotaAPIController.show,
    QuotaAPIController.create, QuotaAPIController.update,
    QuotaAPIController.delete, QuotaAPIController.undelete;
  autorewrite with gate.

(** ** The admin gate *)

(** C1, as stated, fails on the typed surface: the body of a request is
    decoded before the dependencies of the route are resolved, so a caller
    without administrator privilege who sends a body that cannot be decoded
    gets the validation failure, not the authorization failure. *)
Lemma typed_undecodable_body_answered_before_gate :
  user_is_admin Reference.guest = false /\
  run Reference.manager
    (Router.handle Reference.validate_id Reference.guest endpoint_create []
       body_undecodable)
    Reference.store0
  = Outcome (m:=Reference.manager)
      (inl (ValidationError "body: invalid JSON")) Reference.store0 [] /\
  result (run Reference.manager
            (Router.handle Reference.validate_id Reference.guest
               endpoint_create [] body_undecodable)
            Reference.store0)
  <> inl AuthorizationError.
Proof.
  split; [ reflexivity | split; [ reflexivity | ] ].
  simpl. discriminate.
Qed.

Section AdminGate.
Context `{Imports}.
Variable validate : string -> string + EncodedDatabaseIdField.

(** Past the decoding of the body, a caller without the privilege is
    rejected whatever the identifier and the decoded body are. *)
Lemma handle_non_admin (trans : ProvidesUserContext) (e : endpoint)
  (ids : list string) (body : request_body) (value : option pyval) :
  user_is_admin trans = false ->
  Router.read_body e body = inr value ->
  Router.handle validate trans e ids body = Raise AuthorizationError.
Proof.
  intros Hadm Hread. unfold Router.handle. rewrite Hread.
  cbn [try_bind]. now apply AdminUserRequired_reject.
Qed.

Lemma read_body_cases (e : endpoint) (body : request_body) :
  (exists value : option pyval, Router.read_body e body = inr value) \/
  (Router.takes_body e = true /\ body = body_undecodable /\
   Router.read_body e body = inl (ValidationError "body: invalid JSON")).
Proof.
  unfold Router.read_body.
  destruct (Router.takes_body e); [ | left; eexists; reflexivity ].
  destruct body; [ left | right | left ]; eauto.
Qed.

(** C1 (amended): for a caller without administrator privilege no operation
    of either surface reaches the manager, and the store is untouched.  On
    the legacy surface every operation is the authorization failure itself,
    whatever the parameters, malformed payloads included: the gate comes
    before any coercion.  On the typed surface the gate comes before the
    validation of the identifier and of the payload, so a request whose body
    could be decoded, or whose route reads none, is the authorization
    failure whatever they are; but a body that cannot be decoded is answered
    with the validation failure before the gate is reached. *)
Theorem non_admin_rejected_before_manager
  (m : QuotasManager) (trans : ProvidesUserContext) (st : db m) :
  user_is_admin trans = false ->
  (forall r : QuotaAPIController.request,
      QuotaAPIController.dispatch trans r = Raise AuthorizationError /\
      run m (QuotaAPIController.dispatch trans r) st
      = Outcome (inl AuthorizationError) st []) /\
  (forall (e : endpoint) (ids : list string) (body : request_body),
      calls (run m (Router.handle validate trans e ids body) st) = [] /\
      store (run m (Router.handle validate trans e ids body) st) = st /\
      (Router.takes_body e = false \/ body <> body_undecodable ->
       run m (Router.handle validate trans e ids body) st
       = Outcome (inl AuthorizationError) st []) /\
      (Router.takes_body e = true ->
       body = body_undecodable ->
       exists msg : string,
         run m (Router.handle validate trans e ids body) st
         = Outcome (inl (ValidationError msg)) st [])).
Proof.
  intros Hadm. split.
  - assert (Hl : forall r, QuotaAPIController.dispatch trans r
                           = Raise AuthorizationError).
    { intros []; handler; reflexivity. }
    intros r. split; [ auto | ]. rewrite Hl. apply run_raise.
  - intros e ids body.
    destruct (read_body_cases e body)
      as [[value Hread] | (Htakes & -> & Hread)].
    + rewrite (handle_non_admin trans e ids body value Hadm Hread).
      repeat split; try reflexivity.
      intros Htakes ->. unfold Router.read_body in Hread.
      rewrite Htakes in Hread. discriminate Hread.
    + unfold Router.handle. rewrite Hread. cbn [try_bind].
      repeat split; try reflexivity.
      * intros [Hno | Hne]; [ congruence | contradiction ].
      * intros _ _. eexists. reflexivity.
Qed.

End AdminGate.

(** A guest sending a malformed create payload is turned away at the gate of
    the legacy surface, and so is a guest updating an identifier the typed
    route would not accept, with a payload it would not accept either. *)
Lemma non_admin_rejected_witness :
  user_is_admin Reference.guest = false /\
  run Reference.manager
    (QuotaAPIController.dispatch Reference.guest
       (QuotaAPIController.call_create (PyStr "not a dict") ∅))
    Reference.store0
  = Outcome (m:=Reference.manager) (inl AuthorizationError)
      Reference.store0 [] /\
  run Reference.manager
    (Router.handle Reference.validate_id Reference.guest endpoint_update
       ["deleted"] (body_json (PyStr "not a dict")))
    Reference.store0
  = Outcome (m:=Reference.manager) (inl AuthorizationError)
      Reference.store0 [].
Proof.
  split; [ reflexivity | ].
  destruct (non_admin_rejected_before_manager (H:=Reference.imports)
              Reference.validate_id Reference.manager Reference.guest
              Reference.store0 eq_refl) as [Hlegacy Htyped].
  split.
  - apply Hlegacy.
  - destruct (Htyped endpoint_update ["deleted"]
                (body_json (PyStr "not a dict"))) as (_ & _ & Hgate & _).
    apply Hgate. right. discriminate.
Defined.

(** ** Coercion of the [deleted] parameter *)

Lemma lower_ascii_digit_one (c : ascii) :
  lower_ascii c = "1"%char -> c = "1"%char.
Proof.
  destruct c as [[] [] [] [] [] [] [] []]; vm_compute; intros Heq;
    solve [ reflexivity | discriminate Heq ].
Qed.

(** Only a letter and its capital lower-case to that letter. *)
Ltac letter_cases c :=
  destruct c as [[] [] [] [] [] [] [] []]; vm_compute; intros Heq;
  solve [ left; reflexivity | right; reflexivity | discriminate Heq ].

Lemma lower_ascii_t (c : ascii) :
  lower_ascii c = "t"%char -> c = "t"%char \/ c = "T"%char.
Proof. letter_cases c. Qed.

Lemma lower_ascii_r (c : ascii) :
  lower_ascii c = "r"%char -> c = "r"%char \/ c = "R"%char.
Proof. letter_cases c. Qed.

Lemma lower_ascii_u (c : ascii) :
  lower_ascii c = "u"%char -> c = "u"%char \/ c = "U"%char.
Proof. letter_cases c. Qed.

Lemma lower_ascii_e (c : ascii) :
  lower_ascii c = "e"%char -> c = "e"%char \/ c = "E"%char.
Proof. letter_cases c. Qed.

Lemma string_as_bool_true_inv (s : string) :
  string_as_bool s = true -> In s truthy_strings.
Proof.
  unfold string_as_bool. intros Hb.
  apply orb_true_iff in Hb as [Hb | Hb]; apply String.eqb_eq in Hb.
  - destruct s as [| c1 [| c2 [| c3 [| c4 [| c5 s]]]]]; simpl in Hb;
      try discriminate Hb.
    injection Hb as H1 H2 H3 H4.
    apply lower_ascii_t in H1. apply lower_ascii_r in H2.
    apply lower_ascii_u in H3. apply lower_ascii_e in H4.
    destruct H1, H2, H3, H4; subst; simpl; tauto.
  - destruct s as [| c1 [| c2 s]]; simpl in Hb; try discriminate Hb.
    injection Hb as H1. apply lower_ascii_digit_one in H1. subst.
    simpl. tauto.
Qed.

Lemma string_as_bool_truthy (s : string) :
  In s truthy_strings -> string_as_bool s = true.
Proof.
  unfold truthy_strings. simpl. intros Hin.
  repeat (destruct Hin as [<- | Hin]; [ reflexivity | ]).
  destruct Hin.
Qed.

Section DeletedCoercion.
Context `{Imports}.

(** C4: the legacy [index] and [show] hand the manager the [deleted] string
    coerced by truthy-string rules: a string is read as true exactly when it
    is a casing of "true" or is "1"; "False", "false", the empty string and
    the default of an absent parameter are read as false, so the non-empty
    string "False" is false although it is truthy as a Python string. *)
Theorem deleted_string_coercion
  (trans : ProvidesUserContext) (id : EncodedDatabaseIdField) (kwd : pydict) :
  user_is_admin trans = true ->
  (forall s : string, string_as_bool s = true <-> In s truthy_strings) /\
  (forall s : string,
      QuotaAPIController.index trans (Some s) kwd
      = return_call (manager_index trans (string_as_bool s)) /\
      QuotaAPIController.show trans id (Some s) kwd
      = return_call (manager_show trans id (string_as_bool s))) /\
  string_as_bool "False" = false /\
  string_as_bool "false" = false /\
  string_as_bool "" = false /\
  QuotaAPIController.index trans None kwd
  = return_call (manager_index trans false) /\
  QuotaAPIController.show trans id None kwd
  = return_call (manager_show trans id false) /\
  (exists s : string, s <> "" /\ string_as_bool s = false).
Proof.
  intros Hadm.
  split; [ | split; [ | repeat split ] ].
  - intros s. split; [ apply string_as_bool_true_inv
                     | apply string_as_bool_truthy ].
  - intros s. split; handler; reflexivity.
  - handler. reflexivity.
  - handler. reflexivity.
  - exists "False". split; [ discriminate | reflexivity ].
Qed.

End DeletedCoercion.

(** The administrator of the reference instance asking for "TRUE" gets the
    deleted listing. *)
Lemma deleted_string_coercion_witness :
  user_is_admin Reference.root = true /\
  QuotaAPIController.index Reference.root (Some "TRUE") ∅
  = return_call (manager_index Reference.root true).
Proof.
  split; [ reflexivity | ].
  destruct (deleted_string_coercion (H:=Reference.imports) Reference.root
              "f2db41e1fa331b3e" ∅ eq_refl) as (_ & Hcall & _).
  apply (Hcall "TRUE").
Defined.

(** ** Delete without a request body *)

(** C2, as stated, fails on the typed surface: without a body the handler
    receives [None] and passes it on, so the manager is not called with the
    default payload (here the one built from no fields). *)
Lemma typed_delete_without_body_passes_none :
  DeleteQuotaPayload_init ∅ = inr (∅ : pydict) /\
  calls (run Reference.manager
           (FastAPIQuota.delete "f2db41e1fa331b3e" Reference.root None)
           Reference.store0)
  <> [manager_delete Reference.root "f2db41e1fa331b3e" (Some ∅)].
Proof.
  split; [ reflexivity | ].
  simpl. intros Heq. injection Heq as Heq. discriminate Heq.
Qed.

Section DeleteWithoutBody.
Context `{Imports}.

(** C2 (amended): on the legacy surface delete without a body is the same
    program as delete with an explicitly empty payload, and calls the manager
    with the default payload; on the typed surface an explicitly empty
    payload reaches the manager as that default too, whereas no body reaches
    it as [None], with the same outcome whenever the manager treats [None]
    as the default payload. *)
Theorem delete_without_body
  (m : QuotasManager) (trans : ProvidesUserContext)
  (id : EncodedDatabaseIdField) (kwd : pydict) (st : db m) :
  user_is_admin trans = true ->
  kwd !! "payload" = None ->
  QuotaAPIController.delete trans id kwd
  = QuotaAPIController.delete trans id (<["payload" := PyDict ∅]> kwd) /\
  FastAPIQuota.delete id trans None
  = return_call (manager_delete trans id None) /\
  (forall dflt : DeleteQuotaPayload,
      DeleteQuotaPayload_init ∅ = inr dflt ->
      QuotaAPIController.delete trans id kwd
      = return_call (manager_delete trans id (Some dflt)) /\
      FastAPIQuota.delete id trans (Some dflt)
      = return_call (manager_delete trans id (Some dflt)) /\
      (mgr_delete m trans id None st = mgr_delete m trans id (Some dflt) st ->
       result (run m (FastAPIQuota.delete id trans None) st)
       = result (run m (FastAPIQuota.delete id trans (Some dflt)) st) /\
       store (run m (FastAPIQuota.delete id trans None) st)
       = store (run m (FastAPIQuota.delete id trans (Some dflt)) st))).
Proof.
  intros Hadm Hnone.
  split; [ | split ].
  - handler. rewrite Hnone, lookup_insert_eq. reflexivity.
  - handler. reflexivity.
  - intros dflt Hinit. split; [ | split ].
    + handler. rewrite Hnone. simpl. rewrite Hinit. reflexivity.
    + handler. reflexivity.
    + intros Hsame. handler. rewrite !run_return_call. simpl.
      rewrite Hsame. split; reflexivity.
Qed.

End DeleteWithoutBody.

(** The reference manager ignores the payload, so there the two typed
    requests end alike. *)
Lemma delete_without_body_witness :
  user_is_admin Reference.root = true /\
  (∅ : pydict) !! "payload" = None /\
  result (run Reference.manager
            (FastAPIQuota.delete "f2db41e1fa331b3e" Reference.root None)
            Reference.store0)
  = result (run Reference.manager
              (FastAPIQuota.delete "f2db41e1fa331b3e" Reference.root
                 (Some ∅))
              Reference.store0).
Proof.
  assert (Hkwd : (∅ : pydict) !! "payload" = None) by reflexivity.
  split; [ reflexivity | split; [ exact Hkwd | ] ].
  destruct (delete_without_body (H:=Reference.imports) Reference.manager
              Reference.root "f2db41e1fa331b3e" ∅ Reference.store0
              eq_refl Hkwd) as (_ & _ & Hdflt).
  destruct (Hdflt ∅ eq_refl) as (_ & _ & Hrun).
  apply Hrun. reflexivity.
Defined.

(** ** The two surfaces side by side *)

Section Surfaces.
Context `{Imports}.
Variable validate : string -> string + EncodedDatabaseIdField.





End Surfaces.



(** ** Active and deleted listings *)

Section Listings.
Context `{Imports} (m : QuotasManager).

(** The manager's side of the contract: a listing asked for with a deleted
    flag holds only quotas with that flag. *)
Variable Quota : Type.
Variable is_deleted : Quota -> bool.
Variable listed : retval -> list Quota.
Hypothesis index_filters :
  forall (trans : ProvidesUserContext) (deleted : bool) (st st' : db m)
         (v : retval),
    mgr_index m trans deleted st = (inr v, st') ->
    Forall (fun q => is_deleted q = deleted) (listed v).

Lemma listing_flags (trans : ProvidesUserContext) (deleted : bool)
  (st : db m) (v : retval) :
  result (run m (return_call (manager_index trans deleted)) st) = inr v ->
  Forall (fun q => is_deleted q = deleted) (listed v).
Proof.
  rewrite run_return_call. simpl.
  destruct (mgr_index m trans deleted st) as [r st'] eqn:Hidx. simpl.
  intros ->. exact (index_filters trans deleted st st' v Hidx).
Qed.

(** C5: on both surfaces the active listing is the manager's [index] with
    the deleted flag false and the deleted listing is [index] with the flag
    true; with a manager that filters by the flag, a returned active listing
    holds no deleted quota and a returned deleted listing no active one. *)
Theorem listings_respect_deleted_flag
  (trans : ProvidesUserContext) (kwd : pydict) (st : db m) :
  user_is_admin trans = true ->
  (FastAPIQuota.index trans = return_call (manager_index trans false) /\
   FastAPIQuota.index_deleted trans = return_call (manager_index trans true) /\
   QuotaAPIController.index trans None kwd
   = return_call (manager_index trans false) /\
   (forall s : string,
       QuotaAPIController.index trans (Some s) kwd
       = return_call (manager_index trans (string_as_bool s)))) /\
  (forall v : retval,
      (result (run m (FastAPIQuota.index trans) st) = inr v ->
       Forall (fun q => is_deleted q = false) (listed v)) /\
      (result (run m (QuotaAPIController.index trans None kwd) st) = inr v ->
       Forall (fun q => is_deleted q = false) (listed v)) /\
      (result (run m (FastAPIQuota.index_deleted trans) st) = inr v ->
       Forall (fun q => is_deleted q = true) (listed v))) /\
  (forall (s : string) (v : retval),
      result (run m (QuotaAPIController.index trans (Some s) kwd) st)
      = inr v ->
      Forall (fun q => is_deleted q = string_as_bool s) (listed v)).
Proof.
  intros Hadm.
  assert (Hprog :
    FastAPIQuota.index trans = return_call (manager_index trans false) /\
    FastAPIQuota.index_deleted trans
    = return_call (manager_index trans true) /\
    QuotaAPIController.index trans None kwd
    = return_call (manager_index trans false) /\
    (forall s : string,
        QuotaAPIController.index trans (Some s) kwd
        = return_call (manager_index trans (string_as_bool s)))).
  { repeat split; try intros s; handler; reflexivity. }
  split; [ exact Hprog | ].
  destruct Hprog as (Hti & Htd & Hln & Hls).
  split.
  - intros v. rewrite Hti, Htd, Hln. repeat split; apply listing_flags.
  - intros s v. rewrite Hls. apply listing_flags.
Qed.

End Listings.

Lemma Reference_index_filters
  (trans : Reference.context) (deleted : bool) (st st' : list Reference.quota)
  (v : Reference.value) :
  Reference.ref_index trans deleted st = (inr v, st') ->
  Forall (fun q => Reference.quota_deleted q = deleted) (Reference.listed v).
Proof.
  unfold Reference.ref_index. intros [= <- <-]. simpl.
  apply Forall_forall. intros q Hq.
  apply list_elem_of_In, filter_In in Hq as [_ Hq].
  now apply Bool.eqb_prop in Hq.
Qed.

(** The active listing of the reference store holds its one active quota. *)
Lemma listings_respect_deleted_flag_witness :
  user_is_admin Reference.root = true /\
  FastAPIQuota.index Reference.root
  = return_call (manager_index Reference.root false) /\
  (forall v : Reference.value,
      result (run Reference.manager (FastAPIQuota.index Reference.root)
                Reference.store0) = inr v ->
      Forall (fun q => Reference.quota_deleted q = false)
        (Reference.listed v)).
Proof.
  split; [ reflexivity | ].
  destruct (listings_respect_deleted_flag (H:=Reference.imports)
              Reference.manager Reference.quota Reference.quota_deleted
              Reference.listed Reference_index_filters
              Reference.root ∅ Reference.store0 eq_refl)
    as ((Hprog & _) & Hlist & _).
  split; [ exact Hprog | ].
  intros v. apply (Hlist v).
Defined.

(** ** Views of a quota in the wrong state *)

Section Views.
Context `{Imports} (m : QuotasManager).

(** The manager's side of the contract: [show] fails with NotFound, leaving
    the store alone, unless the quota is known and its deleted flag is the
    one asked for. *)
Variable quota_state : db m -> EncodedDatabaseIdField -> option bool.
Hypothesis show_contract :
  forall (trans : ProvidesUserContext) (id : EncodedDatabaseIdField)
         (deleted : bool) (st : db m),
    quota_state st id <> Some deleted ->
    exists msg : string,
      mgr_show m trans id deleted st = (inl (NotFoundError msg), st).

Lemma show_not_found (trans : ProvidesUserContext)
  (id : EncodedDatabaseIdField) (deleted : bool) (st : db m) :
  quota_state st id = Some (negb deleted) ->
  exists msg : string,
    mgr_show m trans id deleted st = (inl (NotFoundError msg), st) /\
    run m (return_call (manager_show trans id deleted)) st
    = Outcome (inl (NotFoundError msg)) st [manager_show trans id deleted].
Proof.
  intros Hstate.
  destruct (show_contract trans id deleted st) as [msg Hshow].
  { rewrite Hstate. intros [= Hneg]. now destruct deleted. }
  exists msg. split; [ exact Hshow | ].
  rewrite run_return_call. simpl. now rewrite Hshow.
Qed.

(** C6: on both surfaces show-active is the manager's [show] with
    deleted=false and show-deleted is [show] with deleted=true; so, with a
    manager that keeps its contract, show-active on the id of a deleted quota
    and show-deleted on the id of an active quota end, after that one call,
    with the very NotFound error the manager raised. *)
Theorem show_in_wrong_state_not_found
  (trans : ProvidesUserContext) (id : EncodedDatabaseIdField)
  (kwd : pydict) (st : db m) :
  user_is_admin trans = true ->
  (FastAPIQuota.show trans id = return_call (manager_show trans id false) /\
   FastAPIQuota.show_deleted trans id
   = return_call (manager_show trans id true) /\
   QuotaAPIController.show trans id None kwd
   = return_call (manager_show trans id false) /\
   (forall s : string,
       QuotaAPIController.show trans id (Some s) kwd
       = return_call (manager_show trans id (string_as_bool s)))) /\
  (quota_state st id = Some true ->
   exists msg : string,
     mgr_show m trans id false st = (inl (NotFoundError msg), st) /\
     run m (FastAPIQuota.show trans id) st
     = Outcome (inl (NotFoundError msg)) st [manager_show trans id false] /\
     run m (QuotaAPIController.show trans id None kwd) st
     = Outcome (inl (NotFoundError msg)) st [manager_show trans id false]) /\
  (quota_state st id = Some false ->
   exists msg : string,
     mgr_show m trans id true st = (inl (NotFoundError msg), st) /\
     run m (FastAPIQuota.show_deleted trans id) st
     = Outcome (inl (NotFoundError msg)) st [manager_show trans id true] /\
     (forall s : string,
         string_as_bool s = true ->
         run m (QuotaAPIController.show trans id (Some s) kwd) st
         = Outcome (inl (NotFoundError msg)) st
             [manager_show trans id true])).
Proof.
  intros Hadm.
  assert (Hprog :
    FastAPIQuota.show trans id = return_call (manager_show trans id false) /\
    FastAPIQuota.show_deleted trans id
    = return_call (manager_show trans id true) /\
    QuotaAPIController.show trans id None kwd
    = return_call (manager_show trans id false) /\
    (forall s : string,
        QuotaAPIController.show trans id (Some s) kwd
        = return_call (manager_show trans id (string_as_bool s)))).
  { repeat split; try intros s; handler; reflexivity. }
  split; [ exact Hprog | ].
  destruct Hprog as (Hts & Htd & Hln & Hls).
  split; intros Hstate.
  - destruct (show_not_found trans id false st Hstate) as (msg & Hshow & Hrun).
    exists msg. rewrite Hts, Hln. auto.
  - destruct (show_not_found trans id true st Hstate) as (msg & Hshow & Hrun).
    exists msg. rewrite Htd. repeat split; auto.
    intros s Hs. rewrite Hls, Hs. exact Hrun.
Qed.

End Views.

Lemma Reference_show_contract
  (trans : Reference.context) (id : string) (deleted : bool)
  (st : list Reference.quota) :
  Reference.quota_state st id <> Some deleted ->
  exists msg : string,
    Reference.ref_show trans id deleted st = (inl (NotFoundError msg), st).
Proof.
  unfold Reference.quota_state, Reference.ref_show. intros Hstate.
  destruct (Reference.find_quota id st) as [q |]; simpl in Hstate.
  - destruct (Bool.eqb (Reference.quota_deleted q) deleted) eqn:Hflag.
    + apply Bool.eqb_prop in Hflag. congruence.
    + eexists. reflexivity.
  - eexists. reflexivity.
Qed.

(** The deleted quota of the reference store is not found by show-active. *)
Lemma show_in_wrong_state_not_found_witness :
  user_is_admin Reference.root = true /\
  Reference.quota_state Reference.store0 "f597429621d6eb2b" = Some true /\
  exists msg : string,
    run Reference.manager
      (FastAPIQuota.show Reference.root "f597429621d6eb2b") Reference.store0
    = Outcome (m:=Reference.manager) (inl (NotFoundError msg))
        Reference.store0
        [manager_show Reference.root "f597429621d6eb2b" false].
Proof.
  split; [ reflexivity | split; [ reflexivity | ] ].
  destruct (show_in_wrong_state_not_found (H:=Reference.imports)
              Reference.manager Reference.quota_state
              Reference_show_contract
              Reference.root "f597429621d6eb2b" ∅ Reference.store0 eq_refl)
    as (_ & Hdeleted & _).
  destruct (Hdeleted eq_refl) as (msg & _ & Hrun & _).
  exists msg. exact Hrun.
Defined.

(** ** The shape of every handler *)

Section Shapes.
Context `{Imports}.

(** A typed handler is the gate's rejection or one tail call on the
    identifier of the path. *)
Lemma typed_shape (trans : ProvidesUserContext) (r : FastAPIQuota.request) :
  FastAPIQuota.dispatch trans r = Raise AuthorizationError \/
  exists c : ManagerCall,
    FastAPIQuota.dispatch trans r = return_call c /\
    call_id c = typed_path_id r.
Proof.
  destruct (user_is_admin trans) eqn:Hadm.
  - right. destruct r; handler; eexists; split; reflexivity.
  - left. destruct r; handler; reflexivity.
Qed.

(** A legacy handler raises before it calls, or is one tail call on the
    identifier of the path. *)
Lemma legacy_shape (trans : ProvidesUserContext)
  (r : QuotaAPIController.request) :
  (exists e : exn, QuotaAPIController.dispatch trans r = Raise e) \/
  exists c : ManagerCall,
    QuotaAPIController.dispatch trans r = return_call c /\
    call_id c = legacy_path_id r.
Proof.
  destruct (user_is_admin trans) eqn:Hadm.
  - destruct r as [ deleted kwd | id deleted kwd | payload kwd
                  | id payload kwd | id kwd | id kwd ]; handler.
    + right. eexists. split; reflexivity.
    + right. eexists. split; reflexivity.
    + destruct (star_star payload) as [e | fields]; simpl;
        [ left; eexists; reflexivity | ].
      destruct (CreateQuotaParams_init fields) as [errors | params]; simpl;
        [ left | right ]; eexists; try split; reflexivity.
    + destruct (star_star payload) as [e | fields]; simpl;
        [ left; eexists; reflexivity | ].
      destruct (UpdateQuotaParams_init fields) as [errors | params]; simpl;
        [ left | right ]; eexists; try split; reflexivity.
    + destruct (star_star (default (PyDict ∅) (kwd !! "payload")))
        as [e | fields]; simpl; [ left; eexists; reflexivity | ].
      destruct (DeleteQuotaPayload_init fields) as [errors | payload]; simpl;
        [ left | right ]; eexists; try split; reflexivity.
    + right. eexists. split; reflexivity.
  - left. exists AuthorizationError. destruct r; handler; reflexivity.
Qed.

Lemma calls_return_call (m : QuotasManager) (c c' : ManagerCall) (st : db m) :
  List.In c' (calls (run m (return_call c) st)) -> c' = c.
Proof.
  rewrite run_return_call. simpl. intros [Heq | []]. now symmetry.
Qed.

End Shapes.

(** ** The identifier of the path *)

Section Identifier.
Context `{Imports}.

(** C7: whatever manager call a request of either surface makes carries
    exactly the identifier the request came with (and none for the routes
    without one); for an administrator show, show-deleted, update, delete
    and undelete do make that call, on the legacy surface once the payload
    has been parsed. *)
Theorem identifier_passed_unchanged
  (m : QuotasManager) (trans : ProvidesUserContext) (st : db m) :
  (forall (r : FastAPIQuota.request) (c : ManagerCall),
      List.In c (calls (run m (FastAPIQuota.dispatch trans r) st)) ->
      call_id c = typed_path_id r) /\
  (forall (r : QuotaAPIController.request) (c : ManagerCall),
      List.In c (calls (run m (QuotaAPIController.dispatch trans r) st)) ->
      call_id c = legacy_path_id r) /\
  (user_is_admin trans = true ->
   forall id : EncodedDatabaseIdField,
     FastAPIQuota.show trans id = return_call (manager_show trans id false) /\
     FastAPIQuota.show_deleted trans id
     = return_call (manager_show trans id true) /\
     (forall payload : UpdateQuotaParams,
         FastAPIQuota.update payload id trans
         = return_call (manager_update trans id payload)) /\
     (forall payload : option DeleteQuotaPayload,
         FastAPIQuota.delete id trans payload
         = return_call (manager_delete trans id payload)) /\
     FastAPIQuota.undelete id trans
     = return_call (manager_undelete trans id) /\
     (forall (deleted : option string) (kwd : pydict),
         QuotaAPIController.show trans id deleted kwd
         = return_call
             (manager_show trans id
                (string_as_bool
                   (default QuotaAPIController.deleted_default deleted)))) /\
     (forall (fields : pydict) (params : UpdateQuotaParams) (kwd : pydict),
         UpdateQuotaParams_init fields = inr params ->
         QuotaAPIController.update trans id (PyDict fields) kwd
         = return_call (manager_update trans id params)) /\
     (forall (fields : pydict) (payload : DeleteQuotaPayload) (kwd : pydict),
         kwd !! "payload" = Some (PyDict fields) ->
         DeleteQuotaPayload_init fields = inr payload ->
         QuotaAPIController.delete trans id kwd
         = return_call (manager_delete trans id (Some payload))) /\
     (forall kwd : pydict,
         QuotaAPIController.undelete trans id kwd
         = return_call (manager_undelete trans id))).
Proof.
  split; [ | split ].
  - intros r c.
    destruct (typed_shape trans r) as [-> | (c' & -> & Hid)].
    + intros [].
    + intros Hin. apply calls_return_call in Hin. now subst.
  - intros r c.
    destruct (legacy_shape trans r) as [(e & ->) | (c' & -> & Hid)].
    + intros [].
    + intros Hin. apply calls_return_call in Hin. now subst.
  - intros Hadm id. repeat split; try (intros; handler; reflexivity).
    + intros fields params kwd Hinit. handler. simpl. now rewrite Hinit.
    + intros fields payload kwd Hkwd Hinit. handler. rewrite Hkwd. simpl.
      now rewrite Hinit.
Qed.

End Identifier.

(** The encoded identifier of the reference store reaches the manager as it
    came, digits and letters alike. *)
Lemma identifier_passed_unchanged_witness :
  user_is_admin Reference.root = true /\
  FastAPIQuota.undelete "f597429621d6eb2b" Reference.root
  = return_call (manager_undelete Reference.root "f597429621d6eb2b").
Proof.
  split; [ reflexivity | ].
  destruct (identifier_passed_unchanged (H:=Reference.imports)
              Reference.manager Reference.root Reference.store0)
    as (_ & _ & Hadmin).
  destruct (Hadmin eq_refl "f597429621d6eb2b") as (_ & _ & _ & _ & Hun & _).
  exact Hun.
Defined.

(** ** Errors *)

Section Errors.
Context `{Imports}.

Lemma raise_ends (m : QuotasManager) (e : exn) (st : db m) :
  ends_as_raised_or_delegated m (Raise e) st.
Proof. left. exists e. split; reflexivity. Qed.

Lemma return_call_ends (m : QuotasManager) (c : ManagerCall) (st : db m) :
  ends_as_raised_or_delegated m (return_call c) st.
Proof. right. exists c. split; [ reflexivity | apply run_return_call ]. Qed.

(** C8: no operation of either surface catches, transforms, retries or
    recovers from an error.  A request ends with an error raised before any
    manager call, or with exactly what its single manager call yields; so an
    error the manager raises is the result of the request, after that one
    call, and an error of the coercion is the result with no call at all. *)
Theorem errors_propagate_unchanged
  (m : QuotasManager) (trans : ProvidesUserContext) (st : db m) :
  (forall r : FastAPIQuota.request,
      ends_as_raised_or_delegated m (FastAPIQuota.dispatch trans r) st) /\
  (forall r : QuotaAPIController.request,
      ends_as_raised_or_delegated m (QuotaAPIController.dispatch trans r) st)
  /\
  (forall (p : prog) (c : ManagerCall) (e : exn) (st' : db m),
      ends_as_raised_or_delegated m p st ->
      first_call p = Some c ->
      perform m c st = (inl e, st') ->
      run m p st = Outcome (inl e) st' [c]) /\
  (user_is_admin trans = true ->
   forall (id : EncodedDatabaseIdField) (payload : pyval) (kwd : pydict)
          (e : exn),
     (star_star payload = inl e ->
      QuotaAPIController.create trans payload kwd = Raise e /\
      QuotaAPIController.update trans id payload kwd = Raise e) /\
     (forall fields : pydict,
         star_star payload = inr fields ->
         (pydantic (CreateQuotaParams_init fields) = inl e ->
          QuotaAPIController.create trans payload kwd = Raise e) /\
         (pydantic (UpdateQuotaParams_init fields) = inl e ->
          QuotaAPIController.update trans id payload kwd = Raise e) /\
         (kwd !! "payload" = Some payload ->
          pydantic (DeleteQuotaPayload_init fields) = inl e ->
          QuotaAPIController.delete trans id kwd = Raise e)) /\
     (kwd !! "payload" = Some payload ->
      star_star payload = inl e ->
      QuotaAPIController.delete trans id kwd = Raise e)).
Proof.
  split; [ | split; [ | split ] ].
  - intros r. destruct (typed_shape trans r) as [-> | (c & -> & _)].
    + apply raise_ends.
    + apply return_call_ends.
  - intros r. destruct (legacy_shape trans r) as [(e & ->) | (c & -> & _)].
    + apply raise_ends.
    + apply return_call_ends.
  - intros p c e st' [(e' & -> & _) | (c' & -> & Hrun)] Hfirst Hperform.
    + discriminate Hfirst.
    + injection Hfirst as <-. rewrite Hrun, Hperform. reflexivity.
  - intros Hadm id payload kwd e. split; [ | split ].
    + intros Hstar. split; handler; rewrite Hstar; reflexivity.
    + intros fields Hstar. split; [ | split ].
      * intros Hinit. handler. rewrite Hstar. simpl. now rewrite Hinit.
      * intros Hinit. handler. rewrite Hstar. simpl. now rewrite Hinit.
      * intros Hkwd Hinit. handler. rewrite Hkwd. simpl. rewrite Hstar.
        simpl. now rewrite Hinit.
    + intros Hkwd Hstar. handler. rewrite Hkwd. simpl. now rewrite Hstar.
Qed.

End Errors.

(** Undelete of the active quota of the reference store: the manager's
    ConflictError is what the request ends with. *)
Lemma errors_propagate_unchanged_witness :
  user_is_admin Reference.root = true /\
  perform Reference.manager
    (manager_undelete Reference.root "f2db41e1fa331b3e") Reference.store0
  = (inl (ConflictError "f2db41e1fa331b3e"), Reference.store0) /\
  run Reference.manager
    (FastAPIQuota.dispatch Reference.root
       (FastAPIQuota.POST_undelete "f2db41e1fa331b3e"))
    Reference.store0
  = Outcome (m:=Reference.manager)
      (inl (ConflictError "f2db41e1fa331b3e")) Reference.store0
      [manager_undelete Reference.root "f2db41e1fa331b3e"].
Proof.
  split; [ reflexivity | split; [ reflexivity | ] ].
  destruct (errors_propagate_unchanged (H:=Reference.imports)
              Reference.manager Reference.root Reference.store0)
    as (Htyped & _ & Hraised & _).
  apply (Hraised _ _ _ _
           (Htyped (FastAPIQuota.POST_undelete "f2db41e1fa331b3e"))
           eq_refl eq_refl).
Defined.

(** ** Payload parsing on the legacy surface *)

(** C9, as stated, fails for a malformed payload that is not a dict: the
    keyword expansion raises TypeError before the constructor is entered, so
    the request does not end with ValidationError. *)
Lemma legacy_create_list_payload_raises_type_error :
  user_is_admin Reference.root = true /\
  run Reference.manager
    (QuotaAPIController.create Reference.root (PyList []) ∅)
    Reference.store0
  = Outcome (m:=Reference.manager)
      (inl (TypeError "argument after ** must be a mapping"))
      Reference.store0 [] /\
  forall errors : string,
    result (run Reference.manager
              (QuotaAPIController.create Reference.root (PyList []) ∅)
              Reference.store0)
    <> inl (ValidationError errors).
Proof.
  split; [ reflexivity | split; [ reflexivity | ] ].
  intros errors. simpl. discriminate.
Qed.

Section LegacyPayload.
Context `{Imports}.

(** C9 (amended): the legacy [create] and [update] build the typed
    parameters from the raw payload before they call the manager.  A payload
    that is not a dict fails on the keyword expansion with TypeError; a dict
    the schema class rejects fails in the constructor with its
    ValidationError; in both cases the manager is not called and the store is
    as before.  With a dict the constructor accepts, the manager is called
    once, with the parsed parameters, and its result is the result of the
    request. *)
Theorem legacy_payload_parsed_before_manager
  (m : QuotasManager) (trans : ProvidesUserContext)
  (id : EncodedDatabaseIdField) (payload : pyval) (kwd : pydict)
  (st : db m) :
  user_is_admin trans = true ->
  ((forall fields : pydict, payload <> PyDict fields) ->
   exists msg : string,
     run m (QuotaAPIController.create trans payload kwd) st
     = Outcome (inl (TypeError msg)) st [] /\
     run m (QuotaAPIController.update trans id payload kwd) st
     = Outcome (inl (TypeError msg)) st []) /\
  (forall fields : pydict,
      payload = PyDict fields ->
      (forall errors : string,
          CreateQuotaParams_init fields = inl errors ->
          run m (QuotaAPIController.create trans payload kwd) st
          = Outcome (inl (ValidationError errors)) st []) /\
      (forall params : CreateQuotaParams,
          CreateQuotaParams_init fields = inr params ->
          run m (QuotaAPIController.create trans payload kwd) st
          = Outcome (mgr_create m trans params st).1
              (mgr_create m trans params st).2
              [manager_create trans params]) /\
      (forall errors : string,
          UpdateQuotaParams_init fields = inl errors ->
          run m (QuotaAPIController.update trans id payload kwd) st
          = Outcome (inl (ValidationError errors)) st []) /\
      (forall params : UpdateQuotaParams,
          UpdateQuotaParams_init fields = inr params ->
          run m (QuotaAPIController.update trans id payload kwd) st
          = Outcome (mgr_update m trans id params st).1
              (mgr_update m trans id params st).2
              [manager_update trans id params])).
Proof.
  intros Hadm. split.
  - intros Hnot.
    assert (Hstar : exists msg, star_star payload = inl (TypeError msg)).
    { destruct payload; try (eexists; reflexivity).
      exfalso. now apply (Hnot d). }
    destruct Hstar as [msg Hstar]. exists msg.
    split; handler; rewrite Hstar; reflexivity.
  - intros fields ->.
    repeat split; intros x Hinit; handler; cbn [try_bind star_star];
      rewrite Hinit; cbn [try_bind pydantic];
      rewrite ?run_return_call; reflexivity.
Qed.

End LegacyPayload.

(** A create payload without the required name changes nothing in the
    reference store. *)
Lemma legacy_payload_parsed_before_manager_witness :
  user_is_admin Reference.root = true /\
  CreateQuotaParams_init ∅ = inl "name: field required" /\
  run Reference.manager
    (QuotaAPIController.create Reference.root (PyDict ∅) ∅) Reference.store0
  = Outcome (m:=Reference.manager)
      (inl (ValidationError "name: field required")) Reference.store0 [].
Proof.
  split; [ reflexivity | split; [ reflexivity | ] ].
  destruct (legacy_payload_parsed_before_manager (H:=Reference.imports)
              Reference.manager Reference.root "f2db41e1fa331b3e"
              (PyDict ∅) ∅ Reference.store0 eq_refl) as (_ & Hdict).
  destruct (Hdict ∅ eq_refl) as (Hinvalid & _).
  apply Hinvalid. reflexivity.
Defined.

(** ** Extra keyword arguments of the legacy surface *)

Section ExtraKeywords.
Context `{Imports}.

(** C10: the extra keyword arguments do not reach the manager.  For index,
    show, create, update and undelete two requests that differ only in them
    are the same program, hence the same manager call and the same result
    with every manager; for delete the same holds as soon as the two agree
    on their 'payload' entry. *)
Theorem extra_keywords_ignored
  (m : QuotasManager) (trans : ProvidesUserContext)
  (id : EncodedDatabaseIdField) (deleted : option string) (payload : pyval)
  (kwd1 kwd2 : pydict) (st : db m) :
  QuotaAPIController.index trans deleted kwd1
  = QuotaAPIController.index trans deleted kwd2 /\
  QuotaAPIController.show trans id deleted kwd1
  = QuotaAPIController.show trans id deleted kwd2 /\
  QuotaAPIController.create trans payload kwd1
  = QuotaAPIController.create trans payload kwd2 /\
  QuotaAPIController.update trans id payload kwd1
  = QuotaAPIController.update trans id payload kwd2 /\
  QuotaAPIController.undelete trans id kwd1
  = QuotaAPIController.undelete trans id kwd2 /\
  (kwd1 !! "payload" = kwd2 !! "payload" ->
   QuotaAPIController.delete trans id kwd1
   = QuotaAPIController.delete trans id kwd2 /\
   run m (QuotaAPIController.delete trans id kwd1) st
   = run m (QuotaAPIController.delete trans id kwd2) st).
Proof.
  do 5 (split; [ reflexivity | ]).
  intros Hpayload. unfold QuotaAPIController.delete.
  rewrite Hpayload. split; reflexivity.
Qed.

End ExtraKeywords.

(** A stray keyword next to no payload changes nothing. *)
Lemma extra_keywords_ignored_witness :
  ({[ "key" := PyStr "abc" ]} : pydict) !! "payload"
  = (∅ : pydict) !! "payload" /\
  QuotaAPIController.delete Reference.root "f2db41e1fa331b3e"
    {[ "key" := PyStr "abc" ]}
  = QuotaAPIController.delete Reference.root "f2db41e1fa331b3e" ∅.
Proof.
  assert (Hkwd : ({[ "key" := PyStr "abc" ]} : pydict) !! "payload"
                 = (∅ : pydict) !! "payload") by reflexivity.
  split; [ exact Hkwd | ].
  apply (extra_keywords_ignored (H:=Reference.imports) Reference.manager
           Reference.root "f2db41e1fa331b3e" None PyNone
           {[ "key" := PyStr "abc" ]} ∅ Reference.store0).
  exact Hkwd.
Defined.

(** ** What reaches the manager *)

Section ManagerCalls.
Context `{Imports}.

(** The call a typed handler starts with is made with the caller's context
    and is the method of the operation asked for. *)
Lemma typed_first_call (trans : ProvidesUserContext)
  (r : FastAPIQuota.request) (c : ManagerCall) :
  first_call (FastAPIQuota.dispatch trans r) = Some c ->
  call_trans c = trans /\ call_method c = typed_operation r.
Proof.
  destruct r; simpl;
    unfold FastAPIQuota.index, FastAPIQuota.index_deleted, FastAPIQuota.show,
      FastAPIQuota.show_deleted, FastAPIQuota.create, FastAPIQuota.update,
      FastAPIQuota.delete, FastAPIQuota.undelete, AdminUserRequired;
    destruct (user_is_admin trans); simpl; intros [= <-]; split; reflexivity.
Qed.

Lemma legacy_first_call (trans : ProvidesUserContext)
  (r : QuotaAPIController.request) (c : ManagerCall) :
  first_call (QuotaAPIController.dispatch trans r) = Some c ->
  call_trans c = trans /\ call_method c = legacy_operation r.
Proof.
  destruct r as [ deleted kwd | id deleted kwd | payload kwd
                | id payload kwd | id kwd | id kwd ]; simpl;
    unfold QuotaAPIController.index, QuotaAPIController.show,
      QuotaAPIController.create, QuotaAPIController.update,
      QuotaAPIController.delete, QuotaAPIController.undelete, require_admin;
    destruct (user_is_admin trans); simpl; try discriminate;
    try (intros [= <-]; split; reflexivity).
  - destruct (star_star payload) as [e | fields]; simpl; try discriminate.
    destruct (CreateQuotaParams_init fields); simpl; try discriminate.
    intros [= <-]; split; reflexivity.
  - destruct (star_star payload) as [e | fields]; simpl; try discriminate.
    destruct (UpdateQuotaParams_init fields); simpl; try discriminate.
    intros [= <-]; split; reflexivity.
  - destruct (star_star (default (PyDict ∅) (kwd !! "payload")))
      as [e | fields]; simpl; try discriminate.
    destruct (DeleteQuotaPayload_init fields); simpl; try discriminate.
    intros [= <-]; split; reflexivity.
Qed.

(** The calls of a run are the call the handler starts with. *)
Lemma typed_calls_first (m : QuotasManager) (trans : ProvidesUserContext)
  (r : FastAPIQuota.request) (c : ManagerCall) (st : db m) :
  List.In c (calls (run m (FastAPIQuota.dispatch trans r) st)) ->
  first_call (FastAPIQuota.dispatch trans r) = Some c.
Proof.
  destruct (typed_shape trans r) as [-> | (c' & -> & _)].
  - intros [].
  - intros Hin. apply calls_return_call in Hin. now subst.
Qed.

Lemma legacy_calls_first (m : QuotasManager) (trans : ProvidesUserContext)
  (r : QuotaAPIController.request) (c : ManagerCall) (st : db m) :
  List.In c (calls (run m (QuotaAPIController.dispatch trans r) st)) ->
  first_call (QuotaAPIController.dispatch trans r) = Some c.
Proof.
  destruct (legacy_shape trans r) as [(e & ->) | (c' & -> & _)].
  - intros [].
  - intros Hin. apply calls_return_call in Hin. now subst.
Qed.

(** X1: every manager call a request of either surface makes is made with
    the context of that request: no handler swaps, rebuilds or drops the
    [trans] it was given. *)
Theorem caller_context_passed_unchanged
  (m : QuotasManager) (trans : ProvidesUserContext) (st : db m) :
  (forall (r : FastAPIQuota.request) (c : ManagerCall),
      List.In c (calls (run m (FastAPIQuota.dispatch trans r) st)) ->
      call_trans c = trans) /\
  (forall (r : QuotaAPIController.request) (c : ManagerCall),
      List.In c (calls (run m (QuotaAPIController.dispatch trans r) st)) ->
      call_trans c = trans).
Proof.
  split; intros r c Hin.
  - apply typed_calls_first in Hin. now apply typed_first_call in Hin.
  - apply legacy_calls_first in Hin. now apply legacy_first_call in Hin.
Qed.

(** X2: a request calls no manager method but the one of its own operation:
    a listing only [index], a view only [show], and so on for create,
    update, delete and undelete, on both surfaces. *)
Theorem operation_calls_its_own_method
  (m : QuotasManager) (trans : ProvidesUserContext) (st : db m) :
  (forall (r : FastAPIQuota.request) (c : ManagerCall),
      List.In c (calls (run m (FastAPIQuota.dispatch trans r) st)) ->
      call_method c = typed_operation r) /\
  (forall (r : QuotaAPIController.request) (c : ManagerCall),
      List.In c (calls (run m (QuotaAPIController.dispatch trans r) st)) ->
      call_method c = legacy_operation r).
Proof.
  split; intros r c Hin.
  - apply typed_calls_first in Hin. now apply typed_first_call in Hin.
  - apply legacy_calls_first in Hin. now apply legacy_first_call in Hin.
Qed.

(** X3: the listings and the views change the store only if the manager's
    [index] and [show] do.  With a manager whose two reading methods leave
    the store as it is, every listing and view request of either surface,
    from any caller and with any [deleted] string, leaves it as it is. *)
Theorem reading_requests_leave_store
  (m : QuotasManager) (trans : ProvidesUserContext) (st : db m) :
  (forall (t : ProvidesUserContext) (deleted : bool) (s : db m),
      (mgr_index m t deleted s).2 = s) ->
  (forall (t : ProvidesUserContext) (id : EncodedDatabaseIdField)
          (deleted : bool) (s : db m),
      (mgr_show m t id deleted s).2 = s) ->
  (forall r : FastAPIQuota.request,
      reads_only (typed_operation r) = true ->
      store (run m (FastAPIQuota.dispatch trans r) st) = st) /\
  (forall r : QuotaAPIController.request,
      reads_only (legacy_operation r) = true ->
      store (run m (QuotaAPIController.dispatch trans r) st) = st).
Proof.
  intros Hindex Hshow.
  assert (Hcall : forall c : ManagerCall,
             reads_only (call_method c) = true ->
             store (run m (return_call c) st) = st).
  { intros c Hreads. rewrite run_return_call. simpl.
    destruct c; simpl in Hreads; try discriminate Hreads; simpl; auto. }
  split; intros r Hreads.
  - destruct (typed_shape trans r) as [Hp | (c & Hp & _)].
    + now rewrite Hp.
    + pose proof (typed_first_call trans r c) as Hfirst.
      rewrite Hp in Hfirst |- *.
      destruct (Hfirst eq_refl) as [_ Hmethod].
      apply Hcall. now rewrite Hmethod.
  - destruct (legacy_shape trans r) as [(e & Hp) | (c & Hp & _)].
    + now rewrite Hp.
    + pose proof (legacy_first_call trans r c) as Hfirst.
      rewrite Hp in Hfirst |- *.
      destruct (Hfirst eq_refl) as [_ Hmethod].
      apply Hcall. now rewrite Hmethod.
Qed.

End ManagerCalls.

(** The administrator's view of the active quota of the reference store. *)
Lemma caller_context_passed_unchanged_witness :
  List.In (manager_show Reference.root "f2db41e1fa331b3e" false)
    (calls (run Reference.manager
              (FastAPIQuota.dispatch Reference.root
                 (FastAPIQuota.GET_quota "f2db41e1fa331b3e"))
              Reference.store0)) /\
  call_trans (manager_show Reference.root "f2db41e1fa331b3e" false)
  = Reference.root.
Proof.
  assert (Hin : List.In (manager_show Reference.root "f2db41e1fa331b3e" false)
    (calls (run Reference.manager
              (FastAPIQuota.dispatch Reference.root
                 (FastAPIQuota.GET_quota "f2db41e1fa331b3e"))
              Reference.store0))) by (simpl; left; reflexivity).
  split; [ exact Hin | ].
  destruct (caller_context_passed_unchanged (H:=Reference.imports)
              Reference.manager Reference.root Reference.store0)
    as [Htyped _].
  apply (Htyped _ _ Hin).
Defined.

(** The legacy undelete of the deleted quota of the reference store. *)
Lemma operation_calls_its_own_method_witness :
  List.In (manager_undelete Reference.root "f597429621d6eb2b")
    (calls (run Reference.manager
              (QuotaAPIController.dispatch Reference.root
                 (QuotaAPIController.call_undelete "f597429621d6eb2b" ∅))
              Reference.store0)) /\
  call_method (manager_undelete Reference.root "f597429621d6eb2b")
  = method_undelete.
Proof.
  assert (Hin : List.In (manager_undelete Reference.root "f597429621d6eb2b")
    (calls (run Reference.manager
              (QuotaAPIController.dispatch Reference.root
                 (QuotaAPIController.call_undelete "f597429621d6eb2b" ∅))
              Reference.store0))) by (simpl; left; reflexivity).
  split; [ exact Hin | ].
  destruct (operation_calls_its_own_method (H:=Reference.imports)
              Reference.manager Reference.root Reference.store0)
    as [_ Hlegacy].
  apply (Hlegacy _ _ Hin).
Defined.

Lemma Reference_index_reads (t : Reference.context) (deleted : bool)
  (s : list Reference.quota) :
  (Reference.ref_index t deleted s).2 = s.
Proof. reflexivity. Qed.

Lemma Reference_show_reads (t : Reference.context) (id : string)
  (deleted : bool) (s : list Reference.quota) :
  (Reference.ref_show t id deleted s).2 = s.
Proof.
  unfold Reference.ref_show.
  destruct (Reference.find_quota id s) as [q |]; [ | reflexivity ].
  destruct (Bool.eqb (Reference.quota_deleted q) deleted); reflexivity.
Qed.

(** The deleted listing of the reference store, asked for as "1". *)
Lemma reading_requests_leave_store_witness :
  reads_only
    (legacy_operation (QuotaAPIController.call_index (Some "1") ∅)) = true /\
  store (run Reference.manager
           (QuotaAPIController.dispatch Reference.root
              (QuotaAPIController.call_index (Some "1") ∅))
           Reference.store0)
  = Reference.store0.
Proof.
  split; [ reflexivity | ].
  destruct (reading_requests_leave_store (H:=Reference.imports)
              Reference.manager Reference.root Reference.store0
              Reference_index_reads Reference_show_reads) as [_ Hlegacy].
  apply Hlegacy. reflexivity.
Defined.

(** ** Arguments of the typed routes *)

Section TypedArguments.
Context `{Imports}.
Variable validate : string -> string + EncodedDatabaseIdField.







End TypedArguments.


(** ** Payloads of the legacy surface that are no mapping *)

Section LegacyEdges.
Context `{Imports}.

(** X5: on the legacy surface a payload that is not a dict (a list, a string,
    a number, null) makes create and update fail on the keyword expansion:
    the request ends with TypeError, not with ValidationError, before any
    schema class is built and before any manager call; delete does the same
    when its 'payload' entry is such a value. *)
Theorem legacy_payload_not_a_mapping
  (m : QuotasManager) (trans : ProvidesUserContext)
  (id : EncodedDatabaseIdField) (payload : pyval) (kwd : pydict)
  (st : db m) :
  user_is_admin trans = true ->
  (forall d : pydict, payload <> PyDict d) ->
  exists msg : string,
    run m (QuotaAPIController.create trans payload kwd) st
    = Outcome (inl (TypeError msg)) st [] /\
    run m (QuotaAPIController.update trans id payload kwd) st
    = Outcome (inl (TypeError msg)) st [] /\
    run m (QuotaAPIController.delete trans id (<["payload" := payload]> kwd))
      st
    = Outcome (inl (TypeError msg)) st [].
Proof.
  intros Hadm Hnot.
  assert (Hstar : exists msg, star_star payload = inl (TypeError msg)).
  { destruct payload; try (eexists; reflexivity).
    exfalso. now apply (Hnot d). }
  destruct Hstar as [msg Hstar]. exists msg.
  repeat split; handler; rewrite ?lookup_insert_eq; simpl;
    rewrite Hstar; reflexivity.
Qed.

(** X6: the legacy delete never hands the manager an absent payload: any
    call it makes is [delete] on the id and context of the request with a
    constructed [DeleteQuotaPayload].  For an administrator the payload is
    built, from the 'payload' entry or from no fields, before the manager is
    called: a failing construction ends the request with its
    ValidationError, no call and the store as before; otherwise the manager
    is called once with the built payload and its outcome is the outcome of
    the request. *)
Theorem legacy_delete_builds_payload
  (m : QuotasManager) (trans : ProvidesUserContext)
  (id : EncodedDatabaseIdField) (kwd : pydict) (st : db m) :
  (forall c : ManagerCall,
      List.In c (calls (run m (QuotaAPIController.delete trans id kwd) st)) ->
      exists payload : DeleteQuotaPayload,
        c = manager_delete trans id (Some payload)) /\
  (user_is_admin trans = true ->
   forall fields : pydict,
     default (PyDict ∅) (kwd !! "payload") = PyDict fields ->
     (forall errors : string,
         DeleteQuotaPayload_init fields = inl errors ->
         run m (QuotaAPIController.delete trans id kwd) st
         = Outcome (inl (ValidationError errors)) st []) /\
     (forall payload : DeleteQuotaPayload,
         DeleteQuotaPayload_init fields = inr payload ->
         run m (QuotaAPIController.delete trans id kwd) st
         = Outcome (mgr_delete m trans id (Some payload) st).1
             (mgr_delete m trans id (Some payload) st).2
             [manager_delete trans id (Some payload)])).
Proof.
  split.
  - intros c. unfold QuotaAPIController.delete, require_admin.
    destruct (user_is_admin trans); [ | intros [] ].
    destruct (star_star (default (PyDict ∅) (kwd !! "payload")))
      as [e | fields]; cbn [try_bind]; [ intros [] | ].
    destruct (DeleteQuotaPayload_init fields) as [errors | payload];
      cbn [try_bind pydantic]; [ intros [] | ].
    intros Hin. apply calls_return_call in Hin. subst c.
    exists payload. reflexivity.
  - intros Hadm fields Hfields. split.
    + intros errors Hinit. handler. rewrite Hfields.
      cbn [try_bind star_star]. rewrite Hinit. reflexivity.
    + intros payload Hinit. handler. rewrite Hfields.
      cbn [try_bind star_star]. rewrite Hinit. cbn [try_bind pydantic].
      rewrite run_return_call. reflexivity.
Qed.

End LegacyEdges.

(** A JSON list sent as the payload of a legacy create. *)
Lemma legacy_payload_not_a_mapping_witness :
  user_is_admin Reference.root = true /\
  (forall d : pydict, PyList [] <> PyDict d) /\
  exists msg : string,
    run Reference.manager
      (QuotaAPIController.create Reference.root (PyList []) ∅)
      Reference.store0
    = Outcome (m:=Reference.manager) (inl (TypeError msg))
        Reference.store0 [].
Proof.
  assert (Hnot : forall d : pydict, PyList [] <> PyDict d)
    by (intros d; discriminate).
  split; [ reflexivity | split; [ exact Hnot | ] ].
  destruct (legacy_payload_not_a_mapping (H:=Reference.imports)
              Reference.manager Reference.root "f2db41e1fa331b3e"
              (PyList []) ∅ Reference.store0 eq_refl Hnot)
    as (msg & Hcreate & _).
  exists msg. exact Hcreate.
Defined.

(** A legacy delete of the active quota of the reference store, without a
    body. *)
Lemma legacy_delete_builds_payload_witness :
  user_is_admin Reference.root = true /\
  default (PyDict ∅) ((∅ : pydict) !! "payload") = PyDict ∅ /\
  DeleteQuotaPayload_init ∅ = inr (∅ : pydict) /\
  calls (run Reference.manager
           (QuotaAPIController.delete Reference.root "f2db41e1fa331b3e" ∅)
           Reference.store0)
  = [manager_delete Reference.root "f2db41e1fa331b3e" (Some ∅)].
Proof.
  assert (Hfields : default (PyDict ∅) ((∅ : pydict) !! "payload")
                    = PyDict ∅) by reflexivity.
  split; [ reflexivity | split; [ exact Hfields | split;
    [ reflexivity | ] ] ].
  destruct (legacy_delete_builds_payload (H:=Reference.imports)
              Reference.manager Reference.root "f2db41e1fa331b3e" ∅
              Reference.store0) as [_ Hadmin].
  destruct (Hadmin eq_refl ∅ Hfields) as [_ Hbuilt].
  rewrite (Hbuilt ∅ eq_refl). reflexivity.
Defined.

(** ** The route table *)

(** A matching pattern accepts the path segment by segment. *)
Lemma match_path_accepts (pattern : list path_part) (path bound : list string) :
  match_path pattern path = Some bound ->
  Forall2 part_accepts pattern path.
Proof.
  revert path bound.
  induction pattern as [| [l | name] pattern IH]; intros [| s path] bound;
    simpl; try discriminate.
  - intros _. constructor.
  - destruct (String.eqb_spec l s) as [-> | Hne]; [ | discriminate ].
    intros Hrest. constructor; [ reflexivity | eauto ].
  - destruct (segment_ok s) eqn:Hok; [ | discriminate ].
    destruct (match_path pattern path) as [bound' |] eqn:Hrest;
      [ | discriminate ].
    intros _. constructor; [ exact Hok | eauto ].
Qed.

(** The values bound by a pattern are segments of the path, as they are,
    each one acceptable to a path parameter. *)
Lemma match_path_bound (pattern : list path_part) (path bound : list string) :
  match_path pattern path = Some bound ->
  forall s : string, List.In s bound -> List.In s path /\ segment_ok s = true.
Proof.
  revert path bound.
  induction pattern as [| [l | name] pattern IH]; intros [| s0 path] bound;
    simpl; try discriminate.
  - intros [= <-] s [].
  - destruct (String.eqb l s0); [ | discriminate ].
    intros Hrest s Hin. destruct (IH _ _ Hrest s Hin). auto.
  - destruct (segment_ok s0) eqn:Hok; [ | discriminate ].
    destruct (match_path pattern path) as [bound' |] eqn:Hrest;
      [ | discriminate ].
    intros [= <-] s [<- | Hin]; [ auto | ].
    destruct (IH _ _ Hrest s Hin). auto.
Qed.


(** Take a matching route apart: its method, and what its pattern makes of
    the path. *)
Ltac route_facts H :=
  unfold route_matches in H;
  cbn [route_method route_path http_method_eqb] in H;
  try (destruct H as [? H]; discriminate H).

Ltac path_facts :=
  repeat match goal with
  | H : is_Some (match_path _ _) |- _ =>
      destruct H as [? H]; apply match_path_accepts in H
  | H : Forall2 _ (_ :: _) _ |- _ =>
      apply Forall2_cons_inv_l in H as (? & ? & ? & H & ?); subst
  | H : Forall2 _ [] _ |- _ =>
      apply Forall2_nil_inv_l in H; subst
  end.

(** X7: the eight routes do not compete for a request, with one exception:
    if two routes of the table match the same method and path, the request
    is GET /api/quotas/deleted and the two are the deleted listing and the
    view of one quota, which takes "deleted" for an identifier. *)
Theorem routes_overlap_only_on_deleted
  (meth : http_method) (path : list string) (i j : nat) (r1 r2 : route) :
  i < j ->
  routes !! i = Some r1 ->
  routes !! j = Some r2 ->
  is_Some (route_matches r1 meth path) ->
  is_Some (route_matches r2 meth path) ->
  meth = GET /\ path = ["api"; "quotas"; "deleted"] /\
  route_endpoint r1 = endpoint_index_deleted /\
  route_endpoint r2 = endpoint_show.
Proof.
  intros Hlt Hi Hj H1 H2.
  destruct meth;
    destruct i as [| [| [| [| [| [| [| [| i]]]]]]]];
    simpl in Hi; try discriminate Hi; injection Hi as <-;
    destruct j as [| [| [| [| [| [| [| [| j]]]]]]]];
    simpl in Hj; try discriminate Hj; injection Hj as <-;
    try lia;
    route_facts H1; route_facts H2; path_facts;
    simpl in *; try discriminate.
  repeat split; congruence.
Qed.

(** The deleted listing and the view both match GET /api/quotas/deleted. *)
Lemma routes_overlap_only_on_deleted_witness :
  1 < 2 /\
  is_Some (route_matches
             (Route GET [literal "api"; literal "quotas"; literal "deleted"]
                endpoint_index_deleted) GET ["api"; "quotas"; "deleted"]) /\
  is_Some (route_matches
             (Route GET [literal "api"; literal "quotas"; path_param "id"]
                endpoint_show) GET ["api"; "quotas"; "deleted"]) /\
  GET = GET /\ ["api"; "quotas"; "deleted"] = ["api"; "quotas"; "deleted"].
Proof.
  assert (Hlt : 1 < 2) by lia.
  assert (H1 : is_Some (route_matches
             (Route GET [literal "api"; literal "quotas"; literal "deleted"]
                endpoint_index_deleted) GET ["api"; "quotas"; "deleted"]))
    by (eexists; reflexivity).
  assert (H2 : is_Some (route_matches
             (Route GET [literal "api"; literal "quotas"; path_param "id"]
                endpoint_show) GET ["api"; "quotas"; "deleted"]))
    by (eexists; reflexivity).
  split; [ exact Hlt | split; [ exact H1 | split; [ exact H2 | ] ] ].
  destruct (routes_overlap_only_on_deleted GET ["api"; "quotas"; "deleted"]
              1 2 _ _ Hlt eq_refl eq_refl H1 H2) as (Hm & Hp & _).
  split; [ exact Hm | exact Hp ].
Defined.

(** Try the routes one after the other on a path whose literal segments
    are known. *)
Ltac resolve_steps :=
  cbn [first_match route_matches route_method route_path route_endpoint
       http_method_eqb match_path];
  rewrite ?String.eqb_refl;
  cbn [first_match route_matches route_method route_path route_endpoint
       http_method_eqb match_path].

Section Shadowing.
Context `{Imports}.
Variable validate : string -> string + EncodedDatabaseIdField.

(** X8: the routes being tried in the order of their declaration, the route
    chosen for GET /api/quotas/deleted is the deleted listing, declared
    before the view, and the request is served by [index_deleted]; the view
    route is chosen for every other acceptable segment and never with the
    identifier "deleted".  PUT and DELETE on /api/quotas/deleted do choose
    the update and delete routes, which have no such sibling; but choosing a
    route is not entering its handler: when the validation of the
    identifier rejects the segment, an administrator's request on the view,
    update or delete route ends with that validation failure and the handler
    is not entered. *)
Theorem deleted_listing_shadows_view
  (trans : ProvidesUserContext) (s : string) (body : request_body) :
  segment_ok s = true ->
  resolve GET ["api"; "quotas"; "deleted"]
  = Some (endpoint_index_deleted, []) /\
  Router.serve validate trans GET ["api"; "quotas"; "deleted"] body
  = Some (FastAPIQuota.index_deleted trans) /\
  (s <> "deleted" ->
   resolve GET ["api"; "quotas"; s] = Some (endpoint_show, [s])) /\
  (forall (meth : http_method) (path : list string),
      resolve meth path <> Some (endpoint_show, ["deleted"])) /\
  resolve PUT ["api"; "quotas"; s] = Some (endpoint_update, [s]) /\
  resolve DELETE ["api"; "quotas"; s] = Some (endpoint_delete, [s]) /\
  (user_is_admin trans = true ->
   forall msg : string,
     validate s = inl msg ->
     exists failure : string,
       (s <> "deleted" ->
        Router.serve validate trans GET ["api"; "quotas"; s] body
        = Some (Raise (ValidationError failure))) /\
       (body <> body_undecodable ->
        Router.serve validate trans PUT ["api"; "quotas"; s] body
        = Some (Raise (ValidationError failure)) /\
        Router.serve validate trans DELETE ["api"; "quotas"; s] body
        = Some (Raise (ValidationError failure)))).
Proof.
  intros Hok.
  assert (Hshow : s <> "deleted" ->
            resolve GET ["api"; "quotas"; s] = Some (endpoint_show, [s])).
  { intros Hne. apply not_eq_sym, String.eqb_neq in Hne.
    unfold resolve, routes. resolve_steps. now rewrite Hne, Hok. }
  assert (Hupdate :
    resolve PUT ["api"; "quotas"; s] = Some (endpoint_update, [s])).
  { unfold resolve, routes. resolve_steps. now rewrite Hok. }
  assert (Hdelete :
    resolve DELETE ["api"; "quotas"; s] = Some (endpoint_delete, [s])).
  { unfold resolve, routes. resolve_steps. now rewrite Hok. }
  split; [ reflexivity | ].
  split; [ | split; [ exact Hshow | split;
    [ | split; [ exact Hupdate | split; [ exact Hdelete | ] ] ] ] ].
  - unfold Router.serve.
    replace (resolve GET ["api"; "quotas"; "deleted"])
      with (Some (endpoint_index_deleted, @nil string)) by reflexivity.
    unfold Router.handle, Router.read_body. cbn [Router.takes_body try_bind].
    unfold Router.bind_arguments. cbn [try_bind FastAPIQuota.dispatch].
    unfold FastAPIQuota.index_deleted, AdminUserRequired.
    now destruct (user_is_admin trans).
  - intros meth path Hres.
    unfold resolve, routes in Hres. simpl in Hres.
    destruct (route_matches _ meth path) eqn:H0 in Hres;
      [ discriminate Hres | ].
    destruct (route_matches _ meth path) as [bound1 |] eqn:H1 in Hres;
      [ discriminate Hres | ].
    destruct (route_matches _ meth path) as [bound2 |] eqn:H2 in Hres.
    + injection Hres as ->.
      unfold route_matches in H1, H2.
      cbn [route_method route_path] in H1, H2.
      destruct (http_method_eqb GET meth); [ | discriminate H2 ].
      pose proof (match_path_accepts _ _ _ H2) as Hacc.
      apply Forall2_cons_inv_l in Hacc as (s0 & path0 & <- & Hacc & ->).
      apply Forall2_cons_inv_l in Hacc as (s1 & path1 & <- & Hacc & ->).
      apply Forall2_cons_inv_l in Hacc as (s2 & path2 & Hs2 & Hacc & ->).
      apply Forall2_nil_inv_l in Hacc as ->.
      simpl in Hs2.
      cbn [match_path] in H2. rewrite !String.eqb_refl, Hs2 in H2.
      injection H2 as ->.
      discriminate H1.
    + repeat (destruct (route_matches _ meth path) in Hres;
              [ discriminate Hres | ]).
      discriminate Hres.
  - intros Hadm msg Hinvalid.
    assert (Hhandle : forall (e : endpoint) (value : option pyval),
              e = endpoint_show \/ e = endpoint_update \/
              e = endpoint_delete ->
              Router.read_body e body = inr value ->
              Router.handle validate trans e [s] body
              = Raise (ValidationError msg)).
    { intros e value He Hread. unfold Router.handle. rewrite Hread.
      cbn [try_bind]. rewrite (AdminUserRequired_pass trans _ Hadm).
      destruct He as [-> | [-> | ->]];
        unfold Router.bind_arguments, Router.path_id;
        rewrite Hinvalid; reflexivity. }
    exists msg. split.
    + intros Hne. unfold Router.serve. rewrite (Hshow Hne).
      f_equal. apply (Hhandle endpoint_show None); [ auto | reflexivity ].
    + intros Hbody. unfold Router.serve. rewrite Hupdate, Hdelete.
      destruct body as [| | v]; try contradiction;
        split; f_equal;
        solve [ apply (Hhandle endpoint_update None); [ auto | reflexivity ]
              | apply (Hhandle endpoint_delete None); [ auto | reflexivity ]
              | apply (Hhandle endpoint_update (Some v));
                  [ auto | reflexivity ]
              | apply (Hhandle endpoint_delete (Some v));
                  [ auto | reflexivity ] ].
Qed.

End Shadowing.

(** An update of the quota whose identifier reads "deleted": the update
    route is chosen, and the reference instance, which does not take
    "deleted" for an encoded identifier, answers with the validation
    failure. *)
Lemma deleted_listing_shadows_view_witness :
  segment_ok "deleted" = true /\
  user_is_admin Reference.root = true /\
  Reference.validate_id "deleted" = inl "id: invalid encoded id" /\
  resolve PUT ["api"; "quotas"; "deleted"]
  = Some (endpoint_update, ["deleted"]) /\
  exists failure : string,
    Router.serve Reference.validate_id Reference.root PUT
      ["api"; "quotas"; "deleted"] body_absent
    = Some (Raise (ValidationError failure)).
Proof.
  split; [ reflexivity | split; [ reflexivity | split; [ reflexivity | ] ] ].
  destruct (deleted_listing_shadows_view (H:=Reference.imports)
              Reference.validate_id Reference.root "deleted" body_absent
              eq_refl) as (_ & _ & _ & _ & Hupdate & _ & Hadmin).
  split; [ exact Hupdate | ].
  destruct (Hadmin eq_refl _ eq_refl) as (failure & _ & Hserved).
  exists failure.
  destruct Hserved as [Hput _]; [ discriminate | exact Hput ].
Defined.



